(** * quick_validate.py: the SKILL.md frontmatter validator

    A shallow embedding of [skills/managing-skills/scripts/quick_validate.py]
    ([validate_skill] and [main]) together with the Python string
    operations it relies on, followed by the properties of the validator.

    Python [str] values are sequences of Unicode code points, so they are
    modelled as [list N]; [len] is [length].  The file system, pathlib's
    path join and PyYAML's [yaml.safe_load] are outside the script and are
    taken as a parameter (record [World]). *)

From Stdlib Require Import List Bool Arith NArith ZArith Lia Sorted.
From Stdlib Require Import Ascii DecimalString.
From Stdlib Require String.
Import ListNotations String.StringSyntax.
Delimit Scope string_scope with string.

(** ** Python strings *)

Module PyStr.

Definition pystr := list N.

(** A literal of the source, written as a Rocq string (ASCII only). *)
Definition lit (s : String.string) : pystr :=
  map N_of_ascii (String.list_ascii_of_string s).
Arguments lit s%_string.

(** The newline character. *)
Definition nl : pystr := [10%N].

Definition eqb (a b : pystr) : bool :=
  if list_eq_dec N.eq_dec a b then true else false.

(** [needle in hay] for a single character. *)
Definition mem_char (c : N) (s : pystr) : bool := existsb (N.eqb c) s.

(** [s.startswith(p)] *)
Fixpoint startswith (p s : pystr) : bool :=
  match p, s with
  | [], _ => true
  | _ :: _, [] => false
  | a :: p', b :: s' => N.eqb a b && startswith p' s'
  end.

(** [s.endswith(p)] *)
Definition endswith (p s : pystr) : bool := startswith (rev p) (rev s).

(** [s.find(p)], returning the text before and after the first occurrence. *)
Fixpoint partition_at (p s : pystr) : option (pystr * pystr) :=
  if startswith p s then Some ([], skipn (length p) s)
  else match s with
       | [] => None
       | c :: s' =>
           match partition_at p s' with
           | Some (before, after) => Some (c :: before, after)
           | None => None
           end
       end.

(** [p in s] for a substring. *)
Definition contains (p s : pystr) : bool :=
  match partition_at p s with Some _ => true | None => false end.

(** [str.isspace] on one code point: the characters that [str.strip()]
    removes when called without argument. *)
Definition isspace (c : N) : bool :=
  ((9 <=? c) && (c <=? 13) || (28 <=? c) && (c <=? 32) ||
   (c =? 133) || (c =? 160) || (c =? 5760) ||
   (8192 <=? c) && (c <=? 8202) || (c =? 8232) || (c =? 8233) ||
   (c =? 8239) || (c =? 8287) || (c =? 12288))%N.

Fixpoint lstrip (s : pystr) : pystr :=
  match s with
  | c :: s' => if isspace c then lstrip s' else s
  | [] => []
  end.

Definition rstrip (s : pystr) : pystr := rev (lstrip (rev s)).

(** [s.strip()] *)
Definition strip (s : pystr) : pystr := rstrip (lstrip s).

(** Line boundaries of [str.splitlines()] other than the pair CR LF. *)
Definition is_linebreak (c : N) : bool :=
  ((10 <=? c) && (c <=? 13) || (28 <=? c) && (c <=? 30) ||
   (c =? 133) || (c =? 8232) || (c =? 8233))%N.

(** [splitlines_from cur s]: [cur] is the current line, reversed. A line
    is emitted at each boundary; the text after the last boundary is a
    line only if it is not empty. *)
Fixpoint splitlines_from (cur s : pystr) : list pystr :=
  match s with
  | [] => match cur with [] => [] | _ => [rev cur] end
  | c :: s' =>
      if is_linebreak c then
        match c, s' with
        | 13%N, 10%N :: s'' => rev cur :: splitlines_from [] s''
        | _, _ => rev cur :: splitlines_from [] s'
        end
      else splitlines_from (c :: cur) s'
  end.

(** [s.splitlines()] *)
Definition splitlines (s : pystr) : list pystr := splitlines_from [] s.

(** [sep.join(l)] for a list of strings. *)
Fixpoint join (sep : pystr) (l : list pystr) : pystr :=
  match l with
  | [] => []
  | [x] => x
  | x :: l' => x ++ sep ++ join sep l'
  end.

(** [str(n)] for a non-negative integer. *)
Definition of_nat (n : nat) : pystr :=
  lit (NilEmpty.string_of_uint (Nat.to_uint n)).

(** The order [<] of Python strings: lexicographic on code points. *)
Fixpoint ltb (a b : pystr) : bool :=
  match a, b with
  | _, [] => false
  | [], _ :: _ => true
  | x :: a', y :: b' => (x <? y)%N || (x =? y)%N && ltb a' b'
  end.

Fixpoint insert_sorted (x : pystr) (l : list pystr) : list pystr :=
  match l with
  | [] => [x]
  | y :: l' => if ltb y x then y :: insert_sorted x l' else x :: l
  end.

(** [sorted(l)] for a list of strings. *)
Definition sorted (l : list pystr) : list pystr :=
  fold_right insert_sorted [] l.

End PyStr.
Import PyStr.

(** ** Python values, exceptions and control flow *)

#[local] Set Warnings "-register-all".

(** The values [yaml.safe_load] can build. The validator inspects the
    payload of strings and dictionaries only; for the other scalars the
    payload is kept as the integer or as the scalar's text. A dictionary
    is the list of its items in insertion order. *)
Inductive pyval : Type :=
| PNone
| PBool (b : bool)
| PInt (z : Z)
| PFloat (text : pystr)
| PStr (s : pystr)
| PBytes (b : list N)
| PDate (text : pystr)
| PDatetime (text : pystr)
| PList (l : list pyval)
| PSet (l : list pyval)
| PDict (items : list (pyval * pyval)).

(** [type(v).__name__] *)
Definition type_name (v : pyval) : pystr :=
  match v with
  | PNone => lit "NoneType"
  | PBool _ => lit "bool"
  | PInt _ => lit "int"
  | PFloat _ => lit "float"
  | PStr _ => lit "str"
  | PBytes _ => lit "bytes"
  | PDate _ => lit "date"
  | PDatetime _ => lit "datetime"
  | PList _ => lit "list"
  | PSet _ => lit "set"
  | PDict _ => lit "dict"
  end.

(** Exceptions, by class. [YAMLError] carries [str(e)], which the
    validator formats into its message. *)
Inductive py_exn : Type :=
| YAMLError (text : pystr)
| TypeError
| ValueError
| OSError
| UnicodeDecodeError.

(** The outcome of a call: a value, or an exception that propagates. *)
Inductive result (A : Type) : Type :=
| Ok (a : A)
| Exn (e : py_exn).
Arguments Ok {A} a.
Arguments Exn {A} e.

(** The validation result pair [(is_valid, message)]. *)
Definition verdict : Type := bool * pystr.

(** Statement sequencing inside [validate_skill]: a statement falls
    through to the next one, executes [return], or raises. *)
Inductive flow (A : Type) : Type :=
| Next (a : A)
| Return (r : verdict)
| Raise (e : py_exn).
Arguments Next {A} a.
Arguments Return {A} r.
Arguments Raise {A} e.

Definition bind {A B : Type} (c : flow A) (k : A -> flow B) : flow B :=
  match c with
  | Next a => k a
  | Return r => Return r
  | Raise e => Raise e
  end.

Declare Scope flow_scope.
Delimit Scope flow_scope with flow.
Notation "x <- c ;; k" := (bind c (fun x => k))
  (at level 61, c at next level, right associativity) : flow_scope.
Notation "c ;; k" := (bind c (fun _ => k))
  (at level 61, right associativity) : flow_scope.
Local Open Scope flow_scope.

(** A call whose exception is not caught. *)
Definition call {A : Type} (r : result A) : flow A :=
  match r with
  | Ok a => Next a
  | Exn e => Raise e
  end.

(** A function body ends with [return]; its caller sees the pair or the
    exception. *)
Definition run (body : flow Empty_set) : result verdict :=
  match body with
  | Next a => match a with end
  | Return r => Ok r
  | Raise e => Exn e
  end.

(** ** The environment of the script *)

(** What is found at a path: nothing, or something whose [read_text()]
    gives the text or raises (a directory, an unreadable or undecodable
    file). *)
Inductive fs_node : Type :=
| NoEntry
| Entry (read_text : result pystr).

Record World : Type := {
  joinpath : pystr -> pystr -> pystr;      (* Path(a) / b *)
  fs : pystr -> fs_node;
  safe_load : pystr -> result pyval        (* yaml.safe_load *)
}.

(** [p.exists()] *)
Definition path_exists (n : fs_node) : bool :=
  match n with NoEntry => false | Entry _ => true end.

(** [p.read_text()] on an existing path. *)
Definition path_read_text (n : fs_node) : result pystr :=
  match n with NoEntry => Exn OSError | Entry r => r end.

(** ** Dictionaries with string lookups *)

Definition dict : Type := list (pyval * pyval).

Definition keys (d : dict) : list pyval := map fst d.

(** [k == s] for a string [s]: only a string equals a string. *)
Definition key_is (s : pystr) (k : pyval) : bool :=
  match k with PStr t => PyStr.eqb t s | _ => false end.

(** [s in d] *)
Definition has_key (s : pystr) (d : dict) : bool :=
  existsb (key_is s) (keys d).

(** [d.get(s, default)] *)
Fixpoint get (s : pystr) (default : pyval) (d : dict) : pyval :=
  match d with
  | [] => default
  | (k, v) :: d' => if key_is s k then v else get s default d'
  end.

(** ** quick_validate.py *)

Definition ALLOWED_PROPERTIES : list pystr :=
  [lit "name"; lit "description"; lit "license"; lit "allowed-tools";
   lit "metadata"].

(** [k in ALLOWED_PROPERTIES] *)
Definition is_allowed (k : pyval) : bool :=
  existsb (fun s => key_is s k) ALLOWED_PROPERTIES.

(** The strings of a list of keys, if all of them are strings. *)
Fixpoint all_str (l : list pyval) : option (list pystr) :=
  match l with
  | [] => Some []
  | PStr s :: l' =>
      match all_str l' with Some r => Some (s :: r) | None => None end
  | _ :: _ => None
  end.

(** [re.match(r'^---\n(.*?)\n---', content, re.DOTALL)], giving
    [group(1)]: the text starts with the three hyphens and a newline, and
    the lazy [.*?] stops at the first newline followed by three hyphens. *)
Definition re_match_frontmatter (content : pystr) : option pystr :=
  if startswith (lit "---" ++ nl) content then
    match partition_at (nl ++ lit "---") (skipn 4 content) with
    | Some (group1, _) => Some group1
    | None => None
    end
  else None.

(** The character class [[a-z0-9-]]. *)
Definition hyphen_case_char (c : N) : bool :=
  ((97 <=? c) && (c <=? 122) || (48 <=? c) && (c <=? 57) || (c =? 45))%N.

(** The longest prefix in a character class, and the rest. *)
Fixpoint span (f : N -> bool) (s : pystr) : pystr * pystr :=
  match s with
  | c :: s' =>
      if f c then let (a, b) := span f s' in (c :: a, b) else ([], s)
  | [] => ([], [])
  end.

(** [re.match(r'^[a-z0-9-]+$', name)]: a non-empty run of the class, then
    [$], which matches at the end of the string and also just before a
    newline that ends the string. *)
Definition re_match_hyphen_case (name : pystr) : bool :=
  let (body, rest) := span hyphen_case_char name in
  match body with
  | [] => false
  | _ :: _ => PyStr.eqb rest [] || PyStr.eqb rest nl
  end.

(** Truth value of a string or list: non-empty. *)
Definition truthy {A : Type} (l : list A) : bool :=
  match l with [] => false | _ :: _ => true end.

(** Lines 61-67: check for unexpected properties. [sorted] or [join]
    raises [TypeError] as soon as one of the keys is not a string. *)
Definition check_unexpected (frontmatter : dict) : flow unit :=
  let unexpected_keys :=
    filter (fun k => negb (is_allowed k)) (keys frontmatter) in
  if truthy unexpected_keys then
    match all_str unexpected_keys with
    | Some names =>
        Return (false,
          lit "Unexpected key(s) in frontmatter: "
          ++ join (lit ", ")
               (sorted (nodup (list_eq_dec N.eq_dec) names))
          ++ lit ". " ++ lit "Allowed: "
          ++ join (lit ", ") (sorted ALLOWED_PROPERTIES))
    | None => Raise TypeError
    end
  else Next tt.

(** Lines 69-73: check required fields. *)
Definition check_required (frontmatter : dict) : flow unit :=
  (if negb (has_key (lit "name") frontmatter)
   then Return (false, lit "Missing 'name' in frontmatter")
   else Next tt) ;;
  (if negb (has_key (lit "description") frontmatter)
   then Return (false, lit "Missing 'description' in frontmatter")
   else Next tt).

(** Lines 75-87: validate name. *)
Definition validate_name (frontmatter : dict) : flow unit :=
  match get (lit "name") (PStr []) frontmatter with
  | PStr name =>
      let name := strip name in
      if truthy name then
        if negb (re_match_hyphen_case name) then
          Return (false,
            lit "Name '" ++ name
            ++ lit "' should be hyphen-case (lowercase, digits, hyphens only)")
        else if startswith (lit "-") name || endswith (lit "-") name
                || contains (lit "--") name then
          Return (false,
            lit "Name '" ++ name
            ++ lit "' cannot start/end with hyphen or contain consecutive hyphens")
        else if 64 <? List.length name then
          Return (false,
            lit "Name too long (" ++ of_nat (List.length name)
            ++ lit " chars). Max: 64")
        else Next tt
      else Next tt
  | name =>
      Return (false, lit "Name must be a string, got " ++ type_name name)
  end.

(** Lines 89-98: validate description. *)
Definition validate_description (frontmatter : dict) : flow unit :=
  match get (lit "description") (PStr []) frontmatter with
  | PStr description =>
      let description := strip description in
      if truthy description then
        if mem_char 60 description || mem_char 62 description then
          Return (false,
            lit "Description cannot contain angle brackets (< or >)")
        else if 1024 <? List.length description then
          Return (false,
            lit "Description too long (" ++ of_nat (List.length description)
            ++ lit " chars). Max: 1024")
        else Next tt
      else Next tt
  | description =>
      Return (false,
        lit "Description must be a string, got " ++ type_name description)
  end.

(** Lines 100-105: check the line count and report success. *)
Definition check_line_count (content : pystr) : flow Empty_set :=
  let line_count := List.length (splitlines content) in
  if 500 <? line_count then
    Return (false,
      lit "SKILL.md too long (" ++ of_nat line_count
      ++ lit " lines). Recommended max: 500")
  else
    Return (true,
      lit "Skill is valid! (" ++ of_nat line_count ++ lit " lines)").

(** Lines 53-59: parse the frontmatter. Only [yaml.YAMLError] is caught;
    the dictionary test is inside the [try]. *)
Definition parse_frontmatter (W : World) (frontmatter_text : pystr)
  : flow dict :=
  match safe_load W frontmatter_text with
  | Ok (PDict frontmatter) => Next frontmatter
  | Ok _ => Return (false, lit "Frontmatter must be a YAML dictionary")
  | Exn (YAMLError e) =>
      Return (false, lit "Invalid YAML in frontmatter: " ++ e)
  | Exn e => Raise e
  end.

(** Lines 61-105, on the parsed dictionary. *)
Definition validate_frontmatter (content : pystr) (frontmatter : dict)
  : flow Empty_set :=
  check_unexpected frontmatter ;;
  check_required frontmatter ;;
  validate_name frontmatter ;;
  validate_description frontmatter ;;
  check_line_count content.

(** Lines 41-105, on the text of SKILL.md. *)
Definition validate_content (W : World) (content : pystr)
  : flow Empty_set :=
  (if negb (startswith (lit "---") content)
   then Return (false, lit "No YAML frontmatter found")
   else Next tt) ;;
  frontmatter_text <-
    match re_match_frontmatter content with
    | Some group1 => Next group1
    | None => Return (false, lit "Invalid frontmatter format")
    end ;;
  frontmatter <- parse_frontmatter W frontmatter_text ;;
  validate_frontmatter content frontmatter.

Definition validate_skill_body (W : World) (skill_path : pystr)
  : flow Empty_set :=
  let skill_md := joinpath W skill_path (lit "SKILL.md") in
  (if negb (path_exists (fs W skill_md))
   then Return (false, lit "SKILL.md not found")
   else Next tt) ;;
  content <- call (path_read_text (fs W skill_md)) ;;
  validate_content W content.

Definition validate_skill (W : World) (skill_path : pystr)
  : result verdict :=
  run (validate_skill_body W skill_path).

(** *** main *)

(** Why a [print] can raise: the text cannot be encoded for the standard
    output, or the stream is closed or broken. *)
Inductive print_exn : Type :=
| UnicodeEncodeError
| StreamError.

(** The standard output of the process: what writing a text does, given
    what was written before. [None]: the text is written. *)
Record Console : Type := {
  write_error : pystr -> pystr -> option print_exn
}.

(** How the process ends: [sys.exit(code)], or an exception that nobody
    caught. *)
Inductive termination : Type :=
| SysExit (code : Z)
| Uncaught (e : py_exn)
| UncaughtPrint (e : print_exn).

(** The exit status of the process; it is 1 after an uncaught
    exception. *)
Definition exit_status (t : termination) : Z :=
  match t with
  | SysExit code => code
  | Uncaught _ => 1
  | UncaughtPrint _ => 1
  end.

Record process : Type := {
  stdout : pystr;
  status : termination
}.

(** The standard output after [print(s)] has written [s] and a
    newline. *)
Definition print (s : pystr) (out : pystr) : pystr := out ++ s ++ nl.

(** [print(s)] on a console: the new output, or the exception; nothing of
    [s] is written when it raises. *)
Definition print_to (C : Console) (s : pystr) (out : pystr)
  : pystr + print_exn :=
  match write_error C out s with
  | None => inl (print s out)
  | Some e => inr e
  end.

Definition check_mark : pystr := [10003%N].
Definition ballot_x : pystr := [10007%N].

Definition main (W : World) (C : Console) (argv : list pystr) : process :=
  if negb (List.length argv =? 2) then
    match print_to C (lit "Usage: quick_validate.py <skill_directory>") []
    with
    | inr e => {| stdout := []; status := UncaughtPrint e |}
    | inl out1 =>
        match print_to C (nl ++ lit "Example:") out1 with
        | inr e => {| stdout := out1; status := UncaughtPrint e |}
        | inl out2 =>
            match
              print_to C (lit "  quick_validate.py .claude/skills/my-skill")
                out2
            with
            | inr e => {| stdout := out2; status := UncaughtPrint e |}
            | inl out3 => {| stdout := out3; status := SysExit 1 |}
            end
        end
    end
  else
    let skill_path := nth 1 argv [] in
    match validate_skill W skill_path with
    | Exn e => {| stdout := []; status := Uncaught e |}
    | Ok (valid, message) =>
        match
          (if valid then print_to C (check_mark ++ lit " " ++ message) []
           else print_to C (ballot_x ++ lit " " ++ message) [])
        with
        | inr e => {| stdout := []; status := UncaughtPrint e |}
        | inl out1 =>
            {| stdout := out1; status := SysExit (if valid then 0 else 1) |}
        end
    end.

(** ** Vocabulary of the properties *)

(** SKILL.md exists under [skill_path] and reads as [content]. *)
Definition has_document (W : World) (skill_path content : pystr) : Prop :=
  fs W (joinpath W skill_path (lit "SKILL.md")) = Entry (Ok content).

(** The header of [content] is extracted and the parser's outcome on it
    is [r]. *)
Definition header_loads (W : World) (content : pystr) (r : result pyval)
  : Prop :=
  exists text,
    re_match_frontmatter content = Some text /\ safe_load W text = r.

(** The keys of the header outside the schema. *)
Definition unexpected_keys (d : dict) : list pyval :=
  filter (fun k => negb (is_allowed k)) (keys d).

(** The name rule in the words of the specification: the language
    [[a-z0-9-]+] without the strings that start or end with a hyphen or
    contain two hyphens in a row, and without those longer than 64. *)
Definition in_name_class (c : N) : Prop :=
  (97 <= c <= 122 \/ 48 <= c <= 57 \/ c = 45)%N.

Definition spec_name_ok (t : pystr) : Prop :=
  t <> [] /\ Forall in_name_class t /\
  (forall r, t <> 45%N :: r) /\
  (forall r, t <> r ++ [45%N]) /\
  (forall a b, t <> a ++ [45%N; 45%N] ++ b) /\
  List.length t <= 64.

(** The three rejections of the name-content gate. *)
Definition name_content_message (t msg : pystr) : Prop :=
  msg = lit "Name '" ++ t
        ++ lit "' should be hyphen-case (lowercase, digits, hyphens only)"
  \/ msg = lit "Name '" ++ t
        ++ lit "' cannot start/end with hyphen or contain consecutive hyphens"
  \/ msg = lit "Name too long (" ++ of_nat (List.length t)
        ++ lit " chars). Max: 64".

(** ** Fixtures: one skill directory and a parser given by a table *)

(** A parser that answers from a table of header texts; the tables below
    list PyYAML's answers on the headers of the sample documents. *)
Definition table_load (table : list (pystr * result pyval)) (text : pystr)
  : result pyval :=
  match find (fun e => PyStr.eqb (fst e) text) table with
  | Some (_, r) => r
  | None => Exn (YAMLError (lit "header not in the table"))
  end.

(** A world whose only file is [skill/SKILL.md]. *)
Definition one_skill (content : pystr)
    (table : list (pystr * result pyval)) : World :=
  {| joinpath := fun a b => a ++ lit "/" ++ b;
     fs := fun p => if PyStr.eqb p (lit "skill/SKILL.md")
                    then Entry (Ok content) else NoEntry;
     safe_load := table_load table |}.

(** A document: the header lines between two [---] lines, then the body
    lines, each line ended by a newline. *)
Definition unlines (lines : list pystr) : pystr :=
  concat (map (fun l => l ++ nl) lines).

Definition good_header : pystr :=
  lit "name: my-skill" ++ nl ++ lit "description: A sample skill".

Definition good_dict : pyval :=
  PDict [(PStr (lit "name"), PStr (lit "my-skill"));
         (PStr (lit "description"), PStr (lit "A sample skill"))].

Definition good_table : list (pystr * result pyval) :=
  [(good_header, Ok good_dict)].

(** A valid document of [4 + n] lines. *)
Definition good_document (n : nat) : pystr :=
  unlines ([lit "---"; lit "name: my-skill";
            lit "description: A sample skill"; lit "---"]
           ++ repeat (lit "body") n).

(** A standard output that takes every text, and one that encodes
    code points below 256 only (Latin-1). *)
Definition utf8_console : Console :=
  {| write_error := fun _ _ => None |}.

Definition latin1_console : Console :=
  {| write_error := fun _ s =>
       if forallb (fun c => (c <? 256)%N) s then None
       else Some UnicodeEncodeError |}.

(** The same document closed by a line of four hyphens. *)
Definition dashes_document : pystr :=
  unlines [lit "---"; lit "name: my-skill";
           lit "description: A sample skill"; lit "----"].

(** A document whose header is empty: [---], [---]. *)
Definition empty_header_document : pystr :=
  unlines [lit "---"; lit "---"].

(** A document whose header is one empty line; PyYAML loads the empty
    text as [None]. *)
Definition null_header_document : pystr :=
  unlines [lit "---"; []; lit "---"].

Definition null_header_table : list (pystr * result pyval) :=
  [([], Ok PNone)].

(** A header with a bare [name:] line. *)
Definition null_name_document : pystr :=
  unlines [lit "---"; lit "name:"; lit "description: A sample skill";
           lit "---"].

Definition null_name_table : list (pystr * result pyval) :=
  [(lit "name:" ++ nl ++ lit "description: A sample skill",
    Ok (PDict [(PStr (lit "name"), PNone);
               (PStr (lit "description"), PStr (lit "A sample skill"))]))].

(** A header whose name is the empty string. *)
Definition empty_name_document : pystr :=
  unlines [lit "---"; lit "name: ''"; lit "description: A sample skill";
           lit "---"].

Definition empty_name_table : list (pystr * result pyval) :=
  [(lit "name: ''" ++ nl ++ lit "description: A sample skill",
    Ok (PDict [(PStr (lit "name"), PStr []);
               (PStr (lit "description"), PStr (lit "A sample skill"))]))].

(** A header whose name has an upper-case letter. *)
Definition bad_name_document : pystr :=
  unlines [lit "---"; lit "name: My-Skill";
           lit "description: A sample skill"; lit "---"].

Definition bad_name_table : list (pystr * result pyval) :=
  [(lit "name: My-Skill" ++ nl ++ lit "description: A sample skill",
    Ok (PDict [(PStr (lit "name"), PStr (lit "My-Skill"));
               (PStr (lit "description"), PStr (lit "A sample skill"))]))].

(** A description of 2008 characters that contains a tag. *)
Definition long_tag : pystr := lit "<script>" ++ repeat 97%N 2000.

Definition tag_document : pystr :=
  unlines [lit "---"; lit "name: my-skill";
           lit "description: " ++ long_tag; lit "---"].

Definition tag_table : list (pystr * result pyval) :=
  [(lit "name: my-skill" ++ nl ++ lit "description: " ++ long_tag,
    Ok (PDict [(PStr (lit "name"), PStr (lit "my-skill"));
               (PStr (lit "description"), PStr long_tag)]))].

(** A header whose only key is the integer 1. *)
Definition int_key_document : pystr :=
  unlines [lit "---"; lit "1: x"; lit "---"].

Definition int_key_dict : dict := [(PInt 1, PStr (lit "x"))].

Definition int_key_table : list (pystr * result pyval) :=
  [(lit "1: x", Ok (PDict int_key_dict))].

(** A header without name and with a key outside the schema. *)
Definition extra_key_document : pystr :=
  unlines [lit "---"; lit "version: x"; lit "author: y"; lit "---"].

Definition extra_key_dict : dict :=
  [(PStr (lit "version"), PStr (lit "x"));
   (PStr (lit "author"), PStr (lit "y"))].

Definition extra_key_table : list (pystr * result pyval) :=
  [(lit "version: x" ++ nl ++ lit "author: y", Ok (PDict extra_key_dict))].

(** ** setup-project.py *)

Module SetupProject.

(** The values [json.load] and [json.loads] build. A float keeps whether
    it is non-zero (its truth value) and its text. A dictionary is the
    list of its items in insertion order; its keys are strings. *)
Inductive jval : Type :=
| JNull
| JBool (b : bool)
| JInt (z : Z)
| JFloat (nonzero : bool) (text : pystr)
| JStr (s : pystr)
| JList (l : list jval)
| JDict (items : list (pystr * jval)).

(** [bool(v)] *)
Definition truth (v : jval) : bool :=
  match v with
  | JNull => false
  | JBool b => b
  | JInt z => negb (Z.eqb z 0)
  | JFloat nonzero _ => nonzero
  | JStr s => truthy s
  | JList l => truthy l
  | JDict items => truthy items
  end.

Inductive exn : Type :=
| KeyError (key : pystr)
| TypeError
| AttributeError
| FileNotFoundError (text : pystr)
| JSONDecodeError (text : pystr)
| TimeoutExpired
| ValueError
| RecursionError
| UnicodeEncodeError
| OSError
| SystemExit (code : Z).

(** A value or a raised exception. *)
Inductive res (A : Type) : Type :=
| Val (a : A)
| Exc (e : exn).
Arguments Val {A} a.
Arguments Exc {A} e.

(** What [subprocess.run(..., capture_output=True, text=True, timeout=30)]
    does: the process completes, or the call raises ([TimeoutExpired]
    when the timeout expires, [FileNotFoundError] when the program is not
    installed, for instance). *)
Inductive run_outcome : Type :=
| Completed (returncode : Z) (out err : pystr)
| RunRaises (e : exn).

(** [argparse.Namespace] after [parse_args]. *)
Record Namespace : Type := {
  lang : pystr;
  field_id : option pystr;
  project_id : option pystr;
  status_only : bool;
  list_langs : bool
}.

(** What the script finds around it. The answer of [gh] may depend on
    the commands run before. *)
Record Env : Type := {
  (* [f.stem for f in locales_dir.glob("*.json")] *)
  glob_json_stems : list pystr;
  (* the file of that name in the locales directory: absent, or the
     outcome of [open] and [json.load] *)
  locale_file : pystr -> option (res jval);
  (* [subprocess.run(argv, ...)], given the earlier command lines *)
  subprocess_run : list (list pystr) -> list pystr -> run_outcome;
  (* [json.loads]: a value, [JSONDecodeError] with its text, or another
     exception ([ValueError] for an integer with too many digits,
     [RecursionError]) *)
  json_loads : pystr -> res jval;
  (* writing a text on the standard output, given what was written
     before: [None] when it is written, or the exception of [print] *)
  stdout_error : pystr -> pystr -> option exn;
  (* [str(v)] for a value that is not a string *)
  str_of : jval -> pystr;
  (* [str(l)] for a list of strings *)
  str_of_list : list pystr -> pystr;
  (* [parser.parse_args()], given the choices of [--lang]: the
     namespace or the exception ([SystemExit] after the help or an
     error), and what it wrote on the standard output (the help) *)
  parse_args : list pystr -> res Namespace * pystr;
  (* lines 187-192: [--lang] has the default "en" and is otherwise one
     of the choices *)
  parse_args_lang : forall choices args printed,
    parse_args choices = (Val args, printed) ->
    lang args = lit "en" \/ In (lang args) choices
}.

(** The double quote. *)
Definition dq : pystr := [34%N].

Definition FIELD_COLORS : list (pystr * list (pystr * pystr)) :=
  [(lit "status",
    [(lit "Icebox", lit "GRAY"); (lit "Backlog", lit "BLUE");
     (lit "Spec Review", lit "PINK"); (lit "Ready", lit "GREEN");
     (lit "In Progress", lit "YELLOW"); (lit "Pending", lit "RED");
     (lit "Review", lit "PURPLE"); (lit "Testing", lit "ORANGE");
     (lit "Done", lit "GREEN"); (lit "Released", lit "GREEN")]);
   (lit "priority",
    [(lit "Critical", lit "RED"); (lit "High", lit "ORANGE");
     (lit "Medium", lit "YELLOW"); (lit "Low", lit "GRAY")]);
   (lit "type",
    [(lit "Feature", lit "GREEN"); (lit "Bug", lit "RED");
     (lit "Chore", lit "GRAY"); (lit "Docs", lit "BLUE");
     (lit "Research", lit "PURPLE")]);
   (lit "size",
    [(lit "XS", lit "GRAY"); (lit "S", lit "GREEN");
     (lit "M", lit "YELLOW"); (lit "L", lit "ORANGE");
     (lit "XL", lit "RED")])].

(** [d.get(k)] on the items of a dictionary with string keys. *)
Fixpoint lookup {A : Type} (k : pystr) (d : list (pystr * A)) : option A :=
  match d with
  | [] => None
  | (k', v) :: d' => if PyStr.eqb k' k then Some v else lookup k d'
  end.

(** [d[k]] on a dictionary with string keys. *)
Definition subscript {A : Type} (d : list (pystr * A)) (k : pystr) : res A :=
  match lookup k d with
  | Some v => Val v
  | None => Exc (KeyError k)
  end.

(** [locale[k]] on a loaded value. *)
Definition subscript_json (locale : jval) (k : pystr) : res jval :=
  match locale with
  | JDict items => subscript items k
  | _ => Exc TypeError
  end.

(** The text an f-string puts for [{v}]. *)
Definition format (E : Env) (v : jval) : pystr :=
  match v with
  | JStr s => s
  | _ => str_of E v
  end.

(** Lines 89-95. [descriptions.get] exists on a dictionary only; it is
    called once for each item of [colors]. *)
Fixpoint option_items (E : Env) (colors : list (pystr * pystr))
    (descriptions : jval) : res (list pystr) :=
  match colors with
  | [] => Val []
  | (name, color) :: colors' =>
      match descriptions with
      | JDict items =>
          let desc :=
            match lookup name items with
            | Some v => format E v
            | None => name
            end in
          match option_items E colors' descriptions with
          | Val rest =>
              Val ((lit "{name: " ++ dq ++ name ++ dq ++ lit ", color: "
                    ++ color ++ lit ", description: " ++ dq ++ desc ++ dq
                    ++ lit "}") :: rest)
          | Exc e => Exc e
          end
      | _ => Exc AttributeError
      end
  end.

Definition build_single_select_options (E : Env)
    (colors : list (pystr * pystr)) (descriptions : jval) : res pystr :=
  match option_items E colors descriptions with
  | Val items => Val (lit "[" ++ join (lit ", ") items ++ lit "]")
  | Exc e => Exc e
  end.

(** *** Effects: the standard output and the commands run so far *)

Record io : Type := {
  out : pystr;
  calls : list (list pystr)
}.

Definition M (A : Type) : Type := io -> res A * io.

Definition ret {A : Type} (a : A) : M A := fun st => (Val a, st).

Definition raise {A : Type} (e : exn) : M A := fun st => (Exc e, st).

Definition bindM {A B : Type} (c : M A) (k : A -> M B) : M B :=
  fun st =>
    match c st with
    | (Val a, st') => k a st'
    | (Exc e, st') => (Exc e, st')
    end.

Definition lift {A : Type} (r : res A) : M A := fun st => (r, st).

Declare Scope io_scope.
Delimit Scope io_scope with io.
Notation "x <- c ;; k" := (bindM c (fun x => k))
  (at level 61, c at next level, right associativity) : io_scope.
Notation "c ;; k" := (bindM c (fun _ => k))
  (at level 61, right associativity) : io_scope.
Local Open Scope io_scope.

(** [print(s)] *)
Definition say (E : Env) (s : pystr) : M unit :=
  fun st =>
    match stdout_error E (out st) s with
    | None => (Val tt, {| out := print s (out st); calls := calls st |})
    | Some e => (Exc e, st)
    end.

Definition SUBPROCESS_TIMEOUT : nat := 30.

(** The command line of lines 104-105. *)
Definition gh_command (query : pystr) : list pystr :=
  [lit "gh"; lit "api"; lit "graphql"; lit "-f"; lit "query=" ++ query].

(** [try: body except ...: handler]: an exception of the body goes to
    the handler of its class, if there is one. *)
Definition try_except {A : Type} (body : M A)
    (handlers : exn -> option (M A)) : M A :=
  fun st =>
    match body st with
    | (Val a, st') => (Val a, st')
    | (Exc e, st') =>
        match handlers e with
        | Some handler => handler st'
        | None => (Exc e, st')
        end
    end.

(** The result of [subprocess.run]. *)
Record CompletedProcess : Type := {
  returncode : Z;
  stdout : pystr;
  stderr : pystr
}.

(** [subprocess.run] on a command line, recorded in [calls]. *)
Definition run_process (E : Env) (argv : list pystr) : M CompletedProcess :=
  fun st =>
    (match subprocess_run E (calls st) argv with
     | Completed rc o e =>
         Val {| returncode := rc; stdout := o; stderr := e |}
     | RunRaises e => Exc e
     end,
     {| out := out st; calls := calls st ++ [argv] |}).

(** Lines 101-121. *)
Definition run_graphql (E : Env) (query : pystr) : M (option jval) :=
  try_except
    (result <- run_process E (gh_command query) ;;
     if negb (Z.eqb (returncode result) 0) then
       say E (lit "Error: " ++ stderr result) ;; ret None
     else if negb (truthy (strip (stdout result))) then ret None
     else
       v <- lift (json_loads E (stdout result)) ;;
       ret (Some v))
    (fun e =>
       match e with
       | TimeoutExpired =>
           Some (say E (lit "Error: Command timed out after "
                        ++ of_nat SUBPROCESS_TIMEOUT ++ lit "s") ;;
                 ret None)
       | JSONDecodeError e =>
           Some (say E (lit "Error: Failed to parse response: " ++ e) ;;
                 ret None)
       | _ => None
       end).

(** The query of lines 134-149. *)
Definition status_query (field_id options : pystr) : pystr :=
  join nl
    [ [];
      lit "    mutation {";
      lit "      updateProjectV2Field(input: {";
      lit "        fieldId: " ++ dq ++ field_id ++ dq;
      lit "        name: " ++ dq ++ lit "Status" ++ dq;
      lit "        singleSelectOptions: " ++ options;
      lit "      }) {";
      lit "        projectV2Field {";
      lit "          ... on ProjectV2SingleSelectField {";
      lit "            name";
      lit "            options { name description }";
      lit "          }";
      lit "        }";
      lit "      }";
      lit "    }";
      lit "    " ].

(** Lines 128-150. *)
Definition setup_status (E : Env) (field_id : pystr) (locale : jval)
  : M (option jval) :=
  colors <- lift (subscript FIELD_COLORS (lit "status")) ;;
  descriptions <- lift (subscript_json locale (lit "status")) ;;
  options <- lift (build_single_select_options E colors descriptions) ;;
  run_graphql E (status_query field_id options).

(** The query of lines 159-175. *)
Definition create_query (project_id name options : pystr) : pystr :=
  join nl
    [ [];
      lit "    mutation {";
      lit "      createProjectV2Field(input: {";
      lit "        projectId: " ++ dq ++ project_id ++ dq;
      lit "        dataType: SINGLE_SELECT";
      lit "        name: " ++ dq ++ name ++ dq;
      lit "        singleSelectOptions: " ++ options;
      lit "      }) {";
      lit "        projectV2Field {";
      lit "          ... on ProjectV2SingleSelectField {";
      lit "            name";
      lit "            options { name }";
      lit "          }";
      lit "        }";
      lit "      }";
      lit "    }";
      lit "    " ].

(** Lines 153-176. *)
Definition create_field (E : Env) (project_id name field_key : pystr)
    (locale : jval) : M (option jval) :=
  colors <- lift (subscript FIELD_COLORS field_key) ;;
  descriptions <- lift (subscript_json locale field_key) ;;
  options <- lift (build_single_select_options E colors descriptions) ;;
  run_graphql E (create_query project_id name options).

(** Lines 67-70. *)
Definition list_available_languages (E : Env) : list pystr :=
  glob_json_stems E.

(** Lines 73-82. *)
Definition load_locale (E : Env) (lang : pystr) : res jval :=
  match locale_file E (lang ++ lit ".json") with
  | None =>
      let available := list_available_languages E in
      Exc (FileNotFoundError
             (lit "Locale '" ++ lang ++ lit "' not found. Available: "
              ++ str_of_list E available))
  | Some loaded => loaded
  end.

(** Truth value of an optional string argument. *)
Definition given (a : option pystr) : option pystr :=
  match a with
  | Some s => if truthy s then Some s else None
  | None => None
  end.

(** [if result:] on what [run_graphql] returned. *)
Definition succeeded (result : option jval) : bool :=
  match result with
  | Some v => truth v
  | None => false
  end.

(** The loop of lines 215-219. *)
Fixpoint create_fields (E : Env) (project_id : pystr) (locale : jval)
    (fields : list (pystr * pystr)) : M unit :=
  match fields with
  | [] => ret tt
  | (field_name, field_key) :: fields' =>
      say E (nl ++ lit "[" ++ field_name ++ lit "] Creating field...") ;;
      result <- create_field E project_id field_name field_key locale ;;
      (if succeeded result
       then say E (lit "  " ++ check_mark ++ lit " " ++ field_name
                 ++ lit " created")
       else ret tt) ;;
      create_fields E project_id locale fields'
  end.

(** [parser.parse_args()]: what it wrote is on the standard output,
    whether it returns or raises. *)
Definition parse (E : Env) (choices : list pystr) : M Namespace :=
  fun st =>
    (fst (parse_args E choices),
     {| out := out st ++ snd (parse_args E choices); calls := calls st |}).

(** Lines 183-221. *)
Definition main (E : Env) : M unit :=
  let available_langs := list_available_languages E in
  args <- parse E available_langs ;;
  if list_langs args then
    say E (lit "Available languages: " ++ str_of_list E available_langs)
  else
    locale <- lift (load_locale E (lang args)) ;;
    say E (lit "Language: " ++ lang args) ;;
    match given (field_id args) with
    | Some id =>
        say E (nl ++ lit "[Status] Updating field " ++ id ++ lit "...") ;;
        result <- setup_status E id locale ;;
        if succeeded result
        then say E (lit "  " ++ check_mark ++ lit " Status updated")
        else ret tt
    | None => ret tt
    end ;;
    match given (project_id args) with
    | Some id =>
        if negb (status_only args) then
          create_fields E id locale
            [(lit "Priority", lit "priority"); (lit "Type", lit "type");
             (lit "Size", lit "size")]
        else ret tt
    | None => ret tt
    end ;;
    say E (nl ++ lit "Done!").

(** The state in which the script starts. *)
Definition start : io := {| out := []; calls := [] |}.

End SetupProject.

(** A header whose name is a list. *)
Definition list_name_document : pystr :=
  unlines [lit "---"; lit "name: [a, b]";
           lit "description: A sample skill"; lit "---"].

Definition list_name_table : list (pystr * result pyval) :=
  [(lit "name: [a, b]" ++ nl ++ lit "description: A sample skill",
    Ok (PDict [(PStr (lit "name"), PList [PStr (lit "a"); PStr (lit "b")]);
               (PStr (lit "description"), PStr (lit "A sample skill"))]))].

(** A header whose description is a number. *)
Definition int_description_document : pystr :=
  unlines [lit "---"; lit "name: my-skill"; lit "description: 42";
           lit "---"].

Definition int_description_table : list (pystr * result pyval) :=
  [(lit "name: my-skill" ++ nl ++ lit "description: 42",
    Ok (PDict [(PStr (lit "name"), PStr (lit "my-skill"));
               (PStr (lit "description"), PInt 42)]))].

(** A description of [n] letters. *)
Definition letters (n : nat) : pystr := repeat 97%N n.

Definition letters_document (n : nat) : pystr :=
  unlines [lit "---"; lit "name: my-skill";
           lit "description: " ++ letters n; lit "---"].

Definition letters_dict (n : nat) : dict :=
  [(PStr (lit "name"), PStr (lit "my-skill"));
   (PStr (lit "description"), PStr (letters n))].

Definition letters_table (n : nat) : list (pystr * result pyval) :=
  [(lit "name: my-skill" ++ nl ++ lit "description: " ++ letters n,
    Ok (PDict (letters_dict n)))].

(** A list of strings in strictly ascending order of code points. *)
Definition ascending : list pystr -> Prop :=
  StronglySorted (fun a b => ltb a b = true).

(** ** Vocabulary and fixtures for setup-project.py *)

(** One option of the GraphQL array, as line 94 formats it. *)
Definition option_text (name color desc : pystr) : pystr :=
  lit "{name: " ++ SetupProject.dq ++ name ++ SetupProject.dq
  ++ lit ", color: " ++ color ++ lit ", description: "
  ++ SetupProject.dq ++ desc ++ SetupProject.dq ++ lit "}".

(** The array of options for a table of colours and a dictionary of
    descriptions. *)
Definition options_text (E : SetupProject.Env)
    (colors : list (pystr * pystr))
    (items : list (pystr * SetupProject.jval)) : pystr :=
  lit "["
  ++ join (lit ", ")
       (map (fun nc =>
               option_text (fst nc) (snd nc)
                 match SetupProject.lookup (fst nc) items with
                 | Some v => SetupProject.format E v
                 | None => fst nc
                 end) colors)
  ++ lit "]".

(** [subprocess.run] never raises anything but the timeout. *)
Definition gh_runs (E : SetupProject.Env) : Prop :=
  forall earlier argv e,
    SetupProject.subprocess_run E earlier argv = SetupProject.RunRaises e ->
    e = SetupProject.TimeoutExpired.

(** [json.loads] raises nothing but [JSONDecodeError]. *)
Definition json_decodes (E : SetupProject.Env) : Prop :=
  forall s e,
    SetupProject.json_loads E s = SetupProject.Exc e ->
    exists text, e = SetupProject.JSONDecodeError text.

(** Every text can be written on the standard output. *)
Definition prints (E : SetupProject.Env) : Prop :=
  forall written s, SetupProject.stdout_error E written s = None.

(** The locale has a dictionary of descriptions under the key. *)
Definition describes (locale : SetupProject.jval) (key : pystr) : Prop :=
  exists items,
    SetupProject.subscript_json locale key
    = SetupProject.Val (SetupProject.JDict items).

(** The colours of a field and the descriptions a locale has for it. *)
Definition colors_of (key : pystr) : list (pystr * pystr) :=
  match SetupProject.lookup key SetupProject.FIELD_COLORS with
  | Some colors => colors
  | None => []
  end.

Definition descriptions_of (locale : SetupProject.jval) (key : pystr)
  : list (pystr * SetupProject.jval) :=
  match SetupProject.subscript_json locale key with
  | SetupProject.Val (SetupProject.JDict items) => items
  | _ => []
  end.

(** The command that updates the status field, and the one that creates
    a field. *)
Definition status_command (E : SetupProject.Env) (id : pystr)
    (locale : SetupProject.jval) : list pystr :=
  SetupProject.gh_command
    (SetupProject.status_query id
       (options_text E (colors_of (lit "status"))
          (descriptions_of locale (lit "status")))).

Definition create_command (E : SetupProject.Env) (id name key : pystr)
    (locale : SetupProject.jval) : list pystr :=
  SetupProject.gh_command
    (SetupProject.create_query id name
       (options_text E (colors_of key) (descriptions_of locale key))).

(** The commands [main] is asked for, in order. *)
Definition status_commands (E : SetupProject.Env)
    (args : SetupProject.Namespace) (locale : SetupProject.jval)
  : list (list pystr) :=
  match SetupProject.given (SetupProject.field_id args) with
  | Some id => [status_command E id locale]
  | None => []
  end.

Definition create_commands (E : SetupProject.Env)
    (args : SetupProject.Namespace) (locale : SetupProject.jval)
  : list (list pystr) :=
  match SetupProject.given (SetupProject.project_id args) with
  | Some id =>
      if SetupProject.status_only args then []
      else [create_command E id (lit "Priority") (lit "priority") locale;
            create_command E id (lit "Type") (lit "type") locale;
            create_command E id (lit "Size") (lit "size") locale]
  | None => []
  end.

(** The call returned. *)
Definition returned {A : Type} (r : SetupProject.res A) : Prop :=
  exists a, r = SetupProject.Val a.

(** From every state the computation ends with an outcome in [P], having
    run exactly the commands [commands] and printed some text that ends
    with [tail]. *)
Definition yields {A : Type} (c : SetupProject.M A)
    (P : SetupProject.res A -> Prop) (commands : list (list pystr))
    (tail : pystr) : Prop :=
  forall st, exists r st' printed,
    c st = (r, st') /\ P r /\
    SetupProject.calls st' = SetupProject.calls st ++ commands /\
    SetupProject.out st' = SetupProject.out st ++ printed ++ tail.

Definition sample_locale : SetupProject.jval :=
  SetupProject.JDict
    [(lit "status",
      SetupProject.JDict
        [(lit "Icebox", SetupProject.JStr (lit "Ideas"));
         (lit "Legacy", SetupProject.JStr (lit "No longer used"))]);
     (lit "priority", SetupProject.JDict []);
     (lit "type", SetupProject.JDict []);
     (lit "size", SetupProject.JDict [])].

(** A locale that describes the status and the priority only. *)
Definition partial_locale : list (pystr * SetupProject.jval) :=
  [(lit "status", SetupProject.JDict []);
   (lit "priority", SetupProject.JDict [])].

(** A response of the API, and what [json.loads] makes of it. *)
Definition sample_response : pystr :=
  lit "{" ++ SetupProject.dq ++ lit "data" ++ SetupProject.dq ++ lit ": 1}".

Definition sample_loads (s : pystr) : SetupProject.res SetupProject.jval :=
  if PyStr.eqb s sample_response
  then SetupProject.Val (SetupProject.JDict [(lit "data", SetupProject.JInt 1)])
  else SetupProject.Exc
         (SetupProject.JSONDecodeError
            (lit "Expecting value: line 1 column 1 (char 0)")).

(** [str(v)] for a scalar; the lists and dictionaries of the examples
    are empty. *)
Definition sample_str_of (v : SetupProject.jval) : pystr :=
  match v with
  | SetupProject.JNull => lit "None"
  | SetupProject.JBool true => lit "True"
  | SetupProject.JBool false => lit "False"
  | SetupProject.JInt z =>
      if (z <? 0)%Z then lit "-" ++ of_nat (Z.to_nat (- z))
      else of_nat (Z.to_nat z)
  | SetupProject.JFloat _ text => text
  | SetupProject.JStr s => s
  | SetupProject.JList _ => lit "[]"
  | SetupProject.JDict _ => lit "{}"
  end.

(** [str(l)] for a list of plain words. *)
Definition sample_str_of_list (l : list pystr) : pystr :=
  lit "[" ++ join (lit ", ") (map (fun s => lit "'" ++ s ++ lit "'") l)
  ++ lit "]".

(** What [parse_args] does with a command line that asks for [args]: it
    rejects a language that is neither the default nor a choice. *)
Definition sample_parse (args : SetupProject.Namespace)
    (choices : list pystr) : SetupProject.res SetupProject.Namespace * pystr :=
  if PyStr.eqb (SetupProject.lang args) (lit "en")
     || existsb (PyStr.eqb (SetupProject.lang args)) choices
  then (SetupProject.Val args, [])
  else (SetupProject.Exc (SetupProject.SystemExit 2), []).

(** An environment whose locales directory has one file for each of
    [stems], all holding [locale]; [gh] gives the listed outcomes one
    after the other, and the command line asks for [args]. *)
Definition sample_env (stems : list pystr) (locale : SetupProject.jval)
    (loads : pystr -> SetupProject.res SetupProject.jval)
    (args : SetupProject.Namespace)
    (answers : list SetupProject.run_outcome) : SetupProject.Env.
Proof.
  refine
    {| SetupProject.glob_json_stems := stems;
       SetupProject.locale_file := fun f =>
         if existsb (fun s => PyStr.eqb f (s ++ lit ".json")) stems
         then Some (SetupProject.Val locale) else None;
       SetupProject.subprocess_run := fun earlier _ =>
         nth (List.length earlier) answers
           (SetupProject.RunRaises SetupProject.TimeoutExpired);
       SetupProject.json_loads := loads;
       SetupProject.stdout_error := fun _ _ => None;
       SetupProject.str_of := sample_str_of;
       SetupProject.str_of_list := sample_str_of_list;
       SetupProject.parse_args := sample_parse args;
       SetupProject.parse_args_lang := _ |}.
  intros choices a printed. unfold sample_parse.
  destruct (PyStr.eqb (SetupProject.lang args) (lit "en")) eqn:Hen;
    cbn [orb].
  - intros [= <- _]. left. unfold PyStr.eqb in Hen.
    destruct (list_eq_dec N.eq_dec (SetupProject.lang args) (lit "en"));
      [assumption | discriminate].
  - destruct (existsb (PyStr.eqb (SetupProject.lang args)) choices) eqn:Hin;
      [|discriminate].
    intros [= <- _]. right.
    apply existsb_exists in Hin as (c & Hc & Heq).
    unfold PyStr.eqb in Heq.
    destruct (list_eq_dec N.eq_dec (SetupProject.lang args) c);
      [subst; assumption | discriminate].
Defined.

Definition sample_args : SetupProject.Namespace :=
  {| SetupProject.lang := lit "en";
     SetupProject.field_id := Some (lit "F_1");
     SetupProject.project_id := Some (lit "P_1");
     SetupProject.status_only := false;
     SetupProject.list_langs := false |}.

(** Three outcomes of [gh]: a response, a failure, something that is not
    JSON; a fourth command times out. *)
Definition sample_answers : list SetupProject.run_outcome :=
  [SetupProject.Completed 0 sample_response [];
   SetupProject.Completed 1 [] (lit "boom");
   SetupProject.Completed 0 (lit "not json") []].

(** The usual environment: the locales [en] and [ja]. *)
Definition demo_env (answers : list SetupProject.run_outcome)
  : SetupProject.Env :=
  sample_env [lit "en"; lit "ja"] sample_locale sample_loads sample_args
    answers.

(** The only locale describes the status and the priority; every command
    gets a response. *)
Definition partial_env : SetupProject.Env :=
  sample_env [lit "en"] (SetupProject.JDict partial_locale) sample_loads
    sample_args
    [SetupProject.Completed 0 sample_response [];
     SetupProject.Completed 0 sample_response []].

(** The locales directory has [ja.json] only and no language is asked
    for, so that the default "en" is taken. *)
Definition default_lang_args : SetupProject.Namespace :=
  {| SetupProject.lang := lit "en";
     SetupProject.field_id := Some (lit "F_1");
     SetupProject.project_id := None;
     SetupProject.status_only := false;
     SetupProject.list_langs := false |}.

Definition ja_only_env : SetupProject.Env :=
  sample_env [lit "ja"] sample_locale sample_loads default_lang_args [].

(** [json.loads] on an integer of more than 4300 digits raises
    [ValueError]; [gh] prints such an integer. *)
Definition long_integer : pystr := repeat 49%N 5000.

Definition limited_loads (s : pystr)
  : SetupProject.res SetupProject.jval :=
  if 4300 <? List.length s then SetupProject.Exc SetupProject.ValueError
  else sample_loads s.

Definition long_integer_env : SetupProject.Env :=
  sample_env [lit "en"] sample_locale limited_loads sample_args
    [SetupProject.Completed 0 long_integer []].

(** * Properties *)

(** ** Facts about the string operations *)

Section StringFacts.

Lemma eqb_eq (a b : pystr) : PyStr.eqb a b = true <-> a = b.
Proof.
  unfold PyStr.eqb. destruct (list_eq_dec N.eq_dec a b); split; congruence.
Qed.

Lemma eqb_refl (a : pystr) : PyStr.eqb a a = true.
Proof. now apply eqb_eq. Qed.

Lemma startswith_app (p r : pystr) : startswith p (p ++ r) = true.
Proof.
  induction p as [|a p IH]; simpl; [reflexivity|].
  now rewrite N.eqb_refl.
Qed.

Lemma startswith_inv (p s : pystr) :
  startswith p s = true -> s = p ++ skipn (List.length p) s.
Proof.
  revert s; induction p as [|a p IH]; intros [|b s]; simpl; try easy.
  intros H. apply andb_prop in H as [Hab Hps].
  apply N.eqb_eq in Hab. subst b. f_equal. now apply IH.
Qed.

Lemma startswith_iff (p s : pystr) :
  startswith p s = true <-> exists r, s = p ++ r.
Proof.
  split.
  - intros H. eexists. now apply startswith_inv.
  - intros [r ->]. apply startswith_app.
Qed.

Lemma endswith_iff (p s : pystr) :
  endswith p s = true <-> exists r, s = r ++ p.
Proof.
  unfold endswith. rewrite startswith_iff. split.
  - intros [r H]. exists (rev r).
    rewrite <- (rev_involutive s), H, rev_app_distr, rev_involutive.
    reflexivity.
  - intros [r ->]. exists (rev r). apply rev_app_distr.
Qed.

(** [partition_at] cuts at an occurrence of the pattern... *)
Lemma partition_at_sound (p s a b : pystr) :
  partition_at p s = Some (a, b) -> s = a ++ p ++ b.
Proof.
  revert a b; induction s as [|c s IH]; intros a b; simpl.
  - destruct (startswith p []) eqn:E; [|discriminate].
    intros [= <- <-]. now apply startswith_inv.
  - destruct (startswith p (c :: s)) eqn:E.
    + intros [= <- <-]. now apply startswith_inv.
    + destruct (partition_at p s) as [[a' b']|]; [|discriminate].
      intros [= <- <-]. simpl. f_equal. now apply IH.
Qed.

(** ... namely the first one... *)
Lemma partition_at_first (p s a b : pystr) :
  partition_at p s = Some (a, b) ->
  forall a' b', s = a' ++ p ++ b' -> List.length a <= List.length a'.
Proof.
  revert a b; induction s as [|c s IH]; intros a b; simpl.
  - destruct (startswith p []) eqn:E; [|discriminate].
    intros [= <- <-]. simpl. lia.
  - destruct (startswith p (c :: s)) eqn:E.
    + intros [= <- <-]. simpl. lia.
    + destruct (partition_at p s) as [[a0 b0]|] eqn:P; [|discriminate].
      intros [= <- <-] a' b' H. destruct a' as [|x a'].
      * simpl in H. rewrite H, startswith_app in E. discriminate.
      * simpl in H. injection H as _ H. simpl.
        apply le_n_S. eapply IH; eauto.
Qed.

(** ... and it finds one whenever there is one. *)
Lemma partition_at_complete (p s a' b' : pystr) :
  s = a' ++ p ++ b' -> exists a b, partition_at p s = Some (a, b).
Proof.
  revert s; induction a' as [|x a' IH]; intros s ->.
  - simpl. destruct p as [|c p]; simpl.
    + destruct b'; simpl; eauto.
    + rewrite N.eqb_refl, startswith_app. simpl. eauto.
  - simpl. destruct (startswith p (x :: a' ++ p ++ b')); eauto.
    destruct (IH _ eq_refl) as (a & b & ->). eauto.
Qed.

Lemma contains_iff (p s : pystr) :
  contains p s = true <-> exists a b, s = a ++ p ++ b.
Proof.
  unfold contains. split.
  - destruct (partition_at p s) as [[a b]|] eqn:P; [|discriminate].
    intros _. exists a, b. now apply partition_at_sound.
  - intros (a & b & H).
    destruct (partition_at_complete _ _ _ _ H) as (a0 & b0 & ->).
    reflexivity.
Qed.

Lemma mem_char_iff (c : N) (s : pystr) : mem_char c s = true <-> In c s.
Proof.
  unfold mem_char. rewrite existsb_exists. split.
  - intros (x & Hx & E). apply N.eqb_eq in E. now subst.
  - intros H. exists c. split; [assumption | apply N.eqb_refl].
Qed.

(** A stripped string neither starts nor ends with whitespace. *)
Lemma lstrip_head (s r : pystr) (c : N) :
  lstrip s = c :: r -> isspace c = false.
Proof.
  induction s as [|x s IH]; simpl; [discriminate|].
  destruct (isspace x) eqn:E; [assumption|].
  now intros [= <- <-].
Qed.

Lemma strip_last (s r : pystr) (c : N) :
  strip s = r ++ [c] -> isspace c = false.
Proof.
  unfold strip, rstrip. intros H.
  apply (f_equal (@rev N)) in H.
  rewrite rev_involutive, rev_app_distr in H. simpl in H.
  eapply lstrip_head; eauto.
Qed.

Lemma span_spec (f : N -> bool) (s a b : pystr) :
  span f s = (a, b) ->
  s = a ++ b /\ forallb f a = true /\
  (b = [] \/ exists c b', b = c :: b' /\ f c = false).
Proof.
  revert a b; induction s as [|c s IH]; intros a b; simpl.
  - intros [= <- <-]. auto.
  - destruct (f c) eqn:E.
    + destruct (span f s) as [a0 b0]. intros [= <- <-].
      destruct (IH _ _ eq_refl) as (-> & Ha & Hb).
      simpl. rewrite E. auto.
    + intros [= <- <-]. simpl. repeat split; eauto.
Qed.

Lemma span_all (f : N -> bool) (s : pystr) :
  forallb f s = true -> span f s = (s, []).
Proof.
  induction s as [|c s IH]; simpl; [reflexivity|].
  intros H. apply andb_prop in H as [-> H]. now rewrite IH.
Qed.

Lemma hyphen_case_char_iff (c : N) :
  hyphen_case_char c = true <-> in_name_class c.
Proof.
  unfold hyphen_case_char, in_name_class.
  rewrite !orb_true_iff, !andb_true_iff, !N.leb_le, N.eqb_eq. tauto.
Qed.

Lemma forallb_name_class (t : pystr) :
  forallb hyphen_case_char t = true <-> Forall in_name_class t.
Proof.
  rewrite forallb_forall, Forall_forall.
  split; intros H x Hx; apply hyphen_case_char_iff; auto.
Qed.

(** On a string that does not end with a newline, the anchored pattern
    accepts exactly the non-empty strings over the class. *)
Lemma re_match_hyphen_case_iff (t : pystr) :
  (forall r, t <> r ++ nl) ->
  re_match_hyphen_case t = true <-> t <> [] /\ Forall in_name_class t.
Proof.
  intros Hnl. unfold re_match_hyphen_case.
  destruct (span hyphen_case_char t) as [body rest] eqn:S.
  destruct (span_spec _ _ _ _ S) as (-> & Hbody & Hrest).
  rewrite <- forallb_name_class. split.
  - destruct body as [|c body]; [discriminate|].
    intros H. split; [discriminate|].
    apply orb_prop in H as [H|H]; apply eqb_eq in H; subst rest.
    + now rewrite app_nil_r.
    + exfalso. eapply Hnl. reflexivity.
  - intros [Hne Hall]. destruct Hrest as [->|(c & b' & -> & Hc)].
    + rewrite app_nil_r in Hne. destruct body; [congruence|reflexivity].
    + rewrite forallb_app in Hall. simpl in Hall.
      rewrite Hc, andb_false_r in Hall. discriminate.
Qed.

End StringFacts.

(** ** The pipeline up to the parsed header *)

Lemma validate_skill_document (W : World) (skill_path content : pystr) :
  has_document W skill_path content ->
  validate_skill W skill_path = run (validate_content W content).
Proof.
  intros Hdoc. unfold validate_skill, validate_skill_body.
  red in Hdoc. rewrite Hdoc. reflexivity.
Qed.

Lemma re_match_frontmatter_startswith (content text : pystr) :
  re_match_frontmatter content = Some text ->
  startswith (lit "---") content = true.
Proof.
  unfold re_match_frontmatter.
  destruct (startswith (lit "---" ++ nl) content) eqn:E; [|discriminate].
  intros _. apply startswith_iff in E as [r ->]. reflexivity.
Qed.

Lemma validate_content_extracted (W : World) (content text : pystr) :
  re_match_frontmatter content = Some text ->
  validate_content W content =
  (frontmatter <- parse_frontmatter W text ;;
   validate_frontmatter content frontmatter).
Proof.
  intros H. unfold validate_content.
  rewrite (re_match_frontmatter_startswith content text H), H.
  reflexivity.
Qed.

Lemma validate_skill_header (W : World) (skill_path content : pystr)
    (d : dict) :
  has_document W skill_path content ->
  header_loads W content (Ok (PDict d)) ->
  validate_skill W skill_path = run (validate_frontmatter content d).
Proof.
  intros Hdoc (text & Hm & Hl).
  rewrite (validate_skill_document W skill_path content Hdoc),
    (validate_content_extracted W content text Hm).
  unfold parse_frontmatter. rewrite Hl. reflexivity.
Qed.

Lemma check_unexpected_pass (d : dict) :
  unexpected_keys d = [] -> check_unexpected d = Next tt.
Proof.
  unfold check_unexpected. fold (unexpected_keys d). now intros ->.
Qed.

Lemma app_same_length (a a' b b' : pystr) :
  a ++ b = a' ++ b' -> List.length a = List.length a' -> a = a'.
Proof.
  revert a'; induction a as [|x a IH]; intros [|y a']; simpl; try easy.
  intros [= -> H] [= L]. f_equal. now apply IH.
Qed.

(** ** Header presence (lines 43-44) *)

(** C3, as the code has it: a text that does not start with the three
    characters [---] is rejected with "No YAML frontmatter found",
    whatever follows; a text that starts with [---] but not with [---]
    and a newline passes this gate and is rejected by the extraction
    gate with "Invalid frontmatter format". *)
Theorem header_presence_gate (W : World) (skill_path content : pystr) :
  has_document W skill_path content ->
  (startswith (lit "---") content = false ->
   validate_skill W skill_path = Ok (false, lit "No YAML frontmatter found"))
  /\
  (startswith (lit "---") content = true ->
   startswith (lit "---" ++ nl) content = false ->
   validate_skill W skill_path
   = Ok (false, lit "Invalid frontmatter format")).
Proof.
  intros Hdoc. rewrite (validate_skill_document _ _ _ Hdoc).
  unfold validate_content, re_match_frontmatter. split.
  - now intros ->.
  - now intros -> ->.
Qed.

Lemma header_presence_gate_witness :
  validate_skill (one_skill (lit "# My skill" ++ nl) []) (lit "skill")
  = Ok (false, lit "No YAML frontmatter found")
  /\ validate_skill (one_skill (lit "--- extra" ++ nl) []) (lit "skill")
     = Ok (false, lit "Invalid frontmatter format").
Proof.
  split.
  - apply (header_presence_gate
             (one_skill (lit "# My skill" ++ nl) []) (lit "skill")
             (lit "# My skill" ++ nl)); reflexivity.
  - apply (header_presence_gate
             (one_skill (lit "--- extra" ++ nl) []) (lit "skill")
             (lit "--- extra" ++ nl)); reflexivity.
Defined.

(** C3 as stated fails: the first line of this document is [----], not
    [---], and the document is rejected by the extraction gate, not with
    "No YAML frontmatter found". *)
Lemma header_presence_counterexample :
  hd [] (splitlines (lit "----" ++ nl)) <> lit "---"
  /\ validate_skill (one_skill (lit "----" ++ nl) []) (lit "skill")
     = Ok (false, lit "Invalid frontmatter format")
  /\ validate_skill (one_skill (lit "----" ++ nl) []) (lit "skill")
     <> Ok (false, lit "No YAML frontmatter found").
Proof.
  split; [|split].
  - discriminate.
  - reflexivity.
  - discriminate.
Qed.

(** ** Header extraction (lines 47-49) *)

(** The pattern matches exactly the texts of the shape
    [---\n text \n--- rest], and [group(1)] is the shortest such [text]. *)
Lemma re_match_frontmatter_iff (content text : pystr) :
  re_match_frontmatter content = Some text <->
  (exists rest,
      content = lit "---" ++ nl ++ text ++ nl ++ lit "---" ++ rest) /\
  (forall text' rest',
      content = lit "---" ++ nl ++ text' ++ nl ++ lit "---" ++ rest' ->
      List.length text <= List.length text').
Proof.
  unfold re_match_frontmatter. split.
  - destruct (startswith (lit "---" ++ nl) content) eqn:E; [|discriminate].
    apply startswith_inv in E.
    change (List.length (lit "---" ++ nl)) with 4 in E.
    destruct (partition_at (nl ++ lit "---") (skipn 4 content))
      as [[a b]|] eqn:P; [|discriminate].
    intros [= ->]. split.
    + exists b. rewrite E at 1.
      rewrite (partition_at_sound _ _ _ _ P). reflexivity.
    + intros text' rest' H.
      eapply (partition_at_first _ _ _ _ P). rewrite H. reflexivity.
  - intros [[rest H] Hmin]. subst content.
    change (startswith (lit "---" ++ nl)
              (lit "---" ++ nl ++ text ++ nl ++ lit "---" ++ rest))
      with true.
    change (skipn 4 (lit "---" ++ nl ++ text ++ nl ++ lit "---" ++ rest))
      with (text ++ (nl ++ lit "---") ++ rest).
    cbv iota.
    destruct (partition_at_complete (nl ++ lit "---") _ text rest eq_refl)
      as (a & b & P).
    rewrite P. f_equal.
    pose proof (partition_at_sound _ _ _ _ P) as S.
    pose proof (partition_at_first _ _ _ _ P text rest eq_refl) as L1.
    assert (L2 : List.length text <= List.length a).
    { apply (Hmin a b).
      exact (f_equal (fun x => lit "---" ++ nl ++ x) S). }
    eapply app_same_length; [symmetry; exact S | lia].
Qed.

Lemma re_match_frontmatter_none (content : pystr) :
  re_match_frontmatter content = None <->
  ~ exists text rest,
      content = lit "---" ++ nl ++ text ++ nl ++ lit "---" ++ rest.
Proof.
  split.
  - intros H (text & rest & E). subst content.
    unfold re_match_frontmatter in H.
    change (startswith (lit "---" ++ nl)
              (lit "---" ++ nl ++ text ++ nl ++ lit "---" ++ rest))
      with true in H.
    change (skipn 4 (lit "---" ++ nl ++ text ++ nl ++ lit "---" ++ rest))
      with (text ++ (nl ++ lit "---") ++ rest) in H.
    cbv iota in H.
    destruct (partition_at_complete (nl ++ lit "---") _ text rest eq_refl)
      as (a & b & P).
    rewrite P in H. discriminate.
  - intros H. destruct (re_match_frontmatter content) as [text|] eqn:E;
      [|reflexivity].
    exfalso. apply H. apply re_match_frontmatter_iff in E as [[rest E] _].
    eauto.
Qed.

(** C2, as the code has it: on a text that starts with [---], the header
    is extracted exactly when the text starts with [---] and a newline
    and, after these four characters, contains a newline followed by
    [---]; the header is the text up to the first such place, and what
    follows the closing [---] is not looked at. Otherwise the verdict is
    "Invalid frontmatter format". *)
Theorem header_extraction_gate (W : World) (skill_path content : pystr) :
  has_document W skill_path content ->
  startswith (lit "---") content = true ->
  (forall text,
      re_match_frontmatter content = Some text <->
      (exists rest,
          content = lit "---" ++ nl ++ text ++ nl ++ lit "---" ++ rest) /\
      (forall text' rest',
          content = lit "---" ++ nl ++ text' ++ nl ++ lit "---" ++ rest' ->
          List.length text <= List.length text'))
  /\
  ((~ exists text rest,
        content = lit "---" ++ nl ++ text ++ nl ++ lit "---" ++ rest) ->
   validate_skill W skill_path
   = Ok (false, lit "Invalid frontmatter format")).
Proof.
  intros Hdoc Hstart. split.
  - intros text. apply re_match_frontmatter_iff.
  - intros H. apply re_match_frontmatter_none in H.
    rewrite (validate_skill_document _ _ _ Hdoc).
    unfold validate_content. rewrite Hstart, H. reflexivity.
Qed.

Lemma header_extraction_gate_witness :
  (exists rest,
      dashes_document
      = lit "---" ++ nl ++ good_header ++ nl ++ lit "---" ++ rest)
  /\ validate_skill (one_skill empty_header_document []) (lit "skill")
     = Ok (false, lit "Invalid frontmatter format").
Proof.
  pose proof (header_extraction_gate
                (one_skill dashes_document good_table) (lit "skill")
                dashes_document eq_refl eq_refl) as [H1 _].
  pose proof (header_extraction_gate
                (one_skill empty_header_document []) (lit "skill")
                empty_header_document eq_refl eq_refl) as [_ H2].
  split.
  - exact (proj1 (proj1 (H1 good_header) eq_refl)).
  - apply H2. apply re_match_frontmatter_none. reflexivity.
Defined.

(** C2 as stated fails: this document starts with the opening delimiter
    and none of its later lines is [---] (the last one is [----]), yet
    the header is extracted and the document is valid. *)
Lemma header_extraction_counterexample :
  startswith (lit "---" ++ nl) dashes_document = true
  /\ existsb (PyStr.eqb (lit "---")) (tl (splitlines dashes_document))
     = false
  /\ re_match_frontmatter dashes_document = Some good_header
  /\ validate_skill (one_skill dashes_document good_table) (lit "skill")
     = Ok (true, lit "Skill is valid! (4 lines)").
Proof. repeat split. Qed.

(** The converse fails too: the second line of this document is [---],
    and extraction fails, because the pattern wants a newline before the
    closing hyphens and after the opening ones. *)
Example empty_header_not_extracted :
  existsb (PyStr.eqb (lit "---")) (tl (splitlines empty_header_document))
  = true
  /\ validate_skill (one_skill empty_header_document []) (lit "skill")
     = Ok (false, lit "Invalid frontmatter format").
Proof. split; reflexivity. Qed.

(** ** Header parse (lines 53-59) *)

(** C9: when the extracted header loads as [None], or as any value that
    is not a dictionary, the verdict is "Frontmatter must be a YAML
    dictionary"; the header is not taken for an empty mapping. *)
Theorem null_header_rejected (W : World) (skill_path content : pystr)
    (v : pyval) :
  has_document W skill_path content ->
  header_loads W content (Ok v) ->
  (v = PNone \/ forall d, v <> PDict d) ->
  validate_skill W skill_path
  = Ok (false, lit "Frontmatter must be a YAML dictionary").
Proof.
  intros Hdoc (text & Hm & Hl) Hv.
  rewrite (validate_skill_document _ _ _ Hdoc),
    (validate_content_extracted W content text Hm).
  unfold parse_frontmatter. rewrite Hl.
  destruct Hv as [->|Hv]; [reflexivity|].
  destruct v; try reflexivity. now elim (Hv items).
Qed.

Lemma null_header_rejected_witness :
  validate_skill (one_skill null_header_document null_header_table)
    (lit "skill")
  = Ok (false, lit "Frontmatter must be a YAML dictionary").
Proof.
  apply (null_header_rejected
           (one_skill null_header_document null_header_table)
           (lit "skill") null_header_document PNone).
  - reflexivity.
  - exists []. split; reflexivity.
  - left. reflexivity.
Defined.

(** ** The gates on the parsed header (lines 61-98) *)

(** With only schema keys and both required keys, the verdict is decided
    from the name gate on. *)
Lemma validate_skill_from_name (W : World) (skill_path content : pystr)
    (d : dict) :
  has_document W skill_path content ->
  header_loads W content (Ok (PDict d)) ->
  unexpected_keys d = [] ->
  has_key (lit "name") d = true ->
  has_key (lit "description") d = true ->
  validate_skill W skill_path
  = run (validate_name d ;; validate_description d ;;
         check_line_count content).
Proof.
  intros Hdoc Hload Hu Hn Hd.
  rewrite (validate_skill_header W skill_path content d Hdoc Hload).
  unfold validate_frontmatter, check_required.
  rewrite (check_unexpected_pass d Hu), Hn, Hd. reflexivity.
Qed.

Lemma has_key_of_get (k : pystr) (default v : pyval) (d : dict) :
  get k default d = v -> v <> default -> has_key k d = true.
Proof.
  unfold has_key, keys. induction d as [|[k' v'] d IH]; simpl.
  - congruence.
  - destruct (key_is k k'); [reflexivity|]. exact IH.
Qed.

Lemma strip_not_newline_ended (s r : pystr) : strip s <> r ++ nl.
Proof.
  intros H. apply strip_last in H. discriminate.
Qed.

Lemma starts_with_hyphen_iff (t : pystr) :
  startswith (lit "-") t = true <-> exists r, t = 45%N :: r.
Proof. apply (startswith_iff (lit "-") t). Qed.

Lemma ends_with_hyphen_iff (t : pystr) :
  endswith (lit "-") t = true <-> exists r, t = r ++ [45%N].
Proof. apply (endswith_iff (lit "-") t). Qed.

Lemma double_hyphen_iff (t : pystr) :
  contains (lit "--") t = true <-> exists a b, t = a ++ [45%N; 45%N] ++ b.
Proof. apply (contains_iff (lit "--") t). Qed.

(** The name gate on a string-typed name: it lets the name through
    exactly when the trimmed name is empty or obeys the name rule, and
    otherwise returns one of its three messages. *)
Lemma name_gate (d : dict) (s : pystr) :
  get (lit "name") (PStr []) d = PStr s ->
  ((strip s = [] \/ spec_name_ok (strip s)) /\ validate_name d = Next tt)
  \/
  (~ (strip s = [] \/ spec_name_ok (strip s)) /\
   exists msg, name_content_message (strip s) msg /\
               validate_name d = Return (false, msg)).
Proof.
  intros Hget. unfold validate_name. rewrite Hget.
  pose proof (strip_not_newline_ended s) as Hnl.
  pose proof (re_match_hyphen_case_iff (strip s) Hnl) as Hre.
  generalize dependent (strip s). intros t _ Hre.
  destruct (truthy t) eqn:Ht.
  2:{ left. destruct t; [auto|discriminate]. }
  assert (Hne : t <> []) by (destruct t; [discriminate|congruence]).
  destruct (re_match_hyphen_case t) eqn:Hm; cbn [negb].
  2:{ right. split.
      - intros [E|(_ & Hall & _)]; [contradiction|].
        assert (false = true) by (apply Hre; auto).
        discriminate.
      - eexists. split; [left; reflexivity | reflexivity]. }
  destruct (proj1 Hre eq_refl) as [_ Hall].
  destruct (startswith (lit "-") t || endswith (lit "-") t
            || contains (lit "--") t) eqn:Hh.
  { right. split.
    - intros [E|(_ & _ & H1 & H2 & H3 & _)]; [contradiction|].
      apply orb_prop in Hh as [Hh|Hh]; [apply orb_prop in Hh as [Hh|Hh]|].
      + apply starts_with_hyphen_iff in Hh as [r E]. now apply (H1 r).
      + apply ends_with_hyphen_iff in Hh as [r E]. now apply (H2 r).
      + apply double_hyphen_iff in Hh as (a & b & E). now apply (H3 a b).
    - eexists. split; [right; left; reflexivity | reflexivity]. }
  apply orb_false_elim in Hh as [Hh H3].
  apply orb_false_elim in Hh as [H1 H2].
  destruct (64 <? List.length t) eqn:Hlen.
  { right. split.
    - intros [E|(_ & _ & _ & _ & _ & L)]; [contradiction|].
      apply Nat.ltb_lt in Hlen. lia.
    - eexists. split; [right; right; reflexivity | reflexivity]. }
  left. split; [|reflexivity]. right.
  apply Nat.ltb_ge in Hlen.
  repeat split; auto.
  - intros r E. rewrite (proj2 (starts_with_hyphen_iff t)) in H1;
      [discriminate | eauto].
  - intros r E. rewrite (proj2 (ends_with_hyphen_iff t)) in H2;
      [discriminate | eauto].
  - intros a b E. rewrite (proj2 (double_hyphen_iff t)) in H3;
      [discriminate | eauto].
Qed.

(** C1: for a header that reaches the name gate with a string-typed
    name, the gate accepts the name exactly when the trimmed name is
    empty or is in [[a-z0-9-]+], neither starts nor ends with a hyphen,
    has no two hyphens in a row and is at most 64 long; validation then
    goes on with the description. Any other name is rejected by the name
    gate with one of its three messages. *)
Theorem name_validity (W : World) (skill_path content : pystr) (d : dict)
    (s : pystr) :
  has_document W skill_path content ->
  header_loads W content (Ok (PDict d)) ->
  unexpected_keys d = [] ->
  has_key (lit "name") d = true ->
  has_key (lit "description") d = true ->
  get (lit "name") (PStr []) d = PStr s ->
  (validate_name d = Next tt <-> strip s = [] \/ spec_name_ok (strip s))
  /\
  (strip s = [] \/ spec_name_ok (strip s) ->
   validate_skill W skill_path
   = run (validate_description d ;; check_line_count content))
  /\
  (~ (strip s = [] \/ spec_name_ok (strip s)) ->
   exists msg,
     name_content_message (strip s) msg /\
     validate_name d = Return (false, msg) /\
     validate_skill W skill_path = Ok (false, msg)).
Proof.
  intros Hdoc Hload Hu Hn Hd Hget.
  rewrite (validate_skill_from_name W skill_path content d
             Hdoc Hload Hu Hn Hd).
  destruct (name_gate d s Hget) as [[Hok Hv]|[Hbad (msg & Hmsg & Hv)]];
    rewrite Hv.
  - split; [tauto|]. split; [reflexivity | tauto].
  - split; [split; [discriminate | tauto]|].
    split; [tauto|]. intros _. exists msg. auto.
Qed.

Lemma name_validity_witness :
  validate_skill (one_skill (good_document 0) good_table) (lit "skill")
  = Ok (true, lit "Skill is valid! (4 lines)")
  /\
  exists msg,
    name_content_message (lit "My-Skill") msg /\
    validate_skill (one_skill bad_name_document bad_name_table)
      (lit "skill") = Ok (false, msg).
Proof.
  split.
  - refine (proj1 (proj2
      (name_validity (one_skill (good_document 0) good_table)
         (lit "skill") (good_document 0)
         [(PStr (lit "name"), PStr (lit "my-skill"));
          (PStr (lit "description"), PStr (lit "A sample skill"))]
         (lit "my-skill") eq_refl _ eq_refl eq_refl eq_refl eq_refl)) _).
    + exists good_header. split; reflexivity.
    + right.
      let t := eval vm_compute in (strip (lit "my-skill")) in
      change (strip (lit "my-skill")) with t.
      split; [|split; [|split; [|split; [|split]]]].
      * discriminate.
      * repeat (apply Forall_cons; [unfold in_name_class; lia|]).
        apply Forall_nil.
      * discriminate.
      * intros r E. apply (f_equal (@rev N)) in E.
        rewrite rev_app_distr in E. discriminate.
      * intros a b E.
        assert (H : contains (lit "--") (lit "my-skill") = true)
          by (apply double_hyphen_iff; eauto).
        discriminate.
      * vm_compute. lia.
  - destruct (proj2 (proj2
      (name_validity (one_skill bad_name_document bad_name_table)
         (lit "skill") bad_name_document
         [(PStr (lit "name"), PStr (lit "My-Skill"));
          (PStr (lit "description"), PStr (lit "A sample skill"))]
         (lit "My-Skill") eq_refl
         (ex_intro _ (lit "name: My-Skill" ++ nl
                      ++ lit "description: A sample skill")
            (conj eq_refl eq_refl))
         eq_refl eq_refl eq_refl eq_refl))) as (msg & Hmsg & _ & Hv).
    + intros [E|(_ & Hall & _)]; [discriminate|].
      let t := eval vm_compute in (strip (lit "My-Skill")) in
      change (strip (lit "My-Skill")) with t in Hall.
      apply Forall_inv in Hall. unfold in_name_class in Hall. lia.
    + exists msg. split; assumption.
Defined.

(** C10: a header that reaches the name gate with [name] present and
    null is rejected by the type test with "Name must be a string, got
    NoneType", while a [name] that is the empty string passes the type
    test and the content tests and validation goes on with the
    description. *)
Theorem null_name_rejected (W : World) (skill_path content : pystr)
    (d : dict) :
  has_document W skill_path content ->
  header_loads W content (Ok (PDict d)) ->
  unexpected_keys d = [] ->
  has_key (lit "description") d = true ->
  (get (lit "name") (PStr []) d = PNone ->
   has_key (lit "name") d = true /\
   validate_skill W skill_path
   = Ok (false, lit "Name must be a string, got NoneType"))
  /\
  (has_key (lit "name") d = true ->
   get (lit "name") (PStr []) d = PStr [] ->
   validate_name d = Next tt /\
   validate_skill W skill_path
   = run (validate_description d ;; check_line_count content)).
Proof.
  intros Hdoc Hload Hu Hd. split.
  - intros Hget.
    assert (Hn : has_key (lit "name") d = true).
    { apply (has_key_of_get _ _ _ _ Hget). discriminate. }
    split; [exact Hn|].
    rewrite (validate_skill_from_name W skill_path content d
               Hdoc Hload Hu Hn Hd).
    unfold validate_name. rewrite Hget. reflexivity.
  - intros Hn Hget.
    rewrite (validate_skill_from_name W skill_path content d
               Hdoc Hload Hu Hn Hd).
    unfold validate_name. rewrite Hget. split; reflexivity.
Qed.

Lemma null_name_rejected_witness :
  validate_skill (one_skill null_name_document null_name_table)
    (lit "skill")
  = Ok (false, lit "Name must be a string, got NoneType")
  /\ validate_skill (one_skill empty_name_document empty_name_table)
       (lit "skill")
     = Ok (true, lit "Skill is valid! (4 lines)").
Proof.
  split.
  - refine (proj2 (proj1
      (null_name_rejected (one_skill null_name_document null_name_table)
         (lit "skill") null_name_document
         [(PStr (lit "name"), PNone);
          (PStr (lit "description"), PStr (lit "A sample skill"))]
         eq_refl _ eq_refl eq_refl) eq_refl)).
    eexists. split; reflexivity.
  - refine (proj2 (proj2
      (null_name_rejected (one_skill empty_name_document empty_name_table)
         (lit "skill") empty_name_document
         [(PStr (lit "name"), PStr []);
          (PStr (lit "description"), PStr (lit "A sample skill"))]
         eq_refl _ eq_refl eq_refl) eq_refl eq_refl)).
    eexists. split; reflexivity.
Defined.

(** C6: for a header that reaches the description gate with a
    string-typed description, an angle bracket in the trimmed description
    gives the angle-bracket verdict whatever the length of the
    description; a description that is empty after trimming skips both
    content tests and validation goes on with the line count. *)
Theorem angle_brackets_rejected (W : World) (skill_path content : pystr)
    (d : dict) (s : pystr) :
  has_document W skill_path content ->
  header_loads W content (Ok (PDict d)) ->
  unexpected_keys d = [] ->
  has_key (lit "name") d = true ->
  has_key (lit "description") d = true ->
  validate_name d = Next tt ->
  get (lit "description") (PStr []) d = PStr s ->
  (In 60%N (strip s) \/ In 62%N (strip s) ->
   validate_skill W skill_path
   = Ok (false, lit "Description cannot contain angle brackets (< or >)"))
  /\
  (strip s = [] ->
   validate_description d = Next tt /\
   validate_skill W skill_path = run (check_line_count content)).
Proof.
  intros Hdoc Hload Hu Hn Hd Hname Hget.
  rewrite (validate_skill_from_name W skill_path content d
             Hdoc Hload Hu Hn Hd), Hname.
  unfold validate_description. rewrite Hget. cbn [bind]. split.
  - intros Hin.
    assert (Ht : truthy (strip s) = true).
    { destruct (strip s); [destruct Hin as [[]|[]] | reflexivity]. }
    assert (Hb : mem_char 60 (strip s) || mem_char 62 (strip s) = true).
    { apply orb_true_iff. now rewrite !mem_char_iff. }
    rewrite Ht, Hb. reflexivity.
  - intros ->. split; reflexivity.
Qed.

Lemma angle_brackets_rejected_witness :
  1024 < List.length (strip long_tag)
  /\ validate_skill (one_skill tag_document tag_table) (lit "skill")
     = Ok (false, lit "Description cannot contain angle brackets (< or >)").
Proof.
  split.
  - vm_compute. lia.
  - refine (proj1
      (angle_brackets_rejected (one_skill tag_document tag_table)
         (lit "skill") tag_document
         [(PStr (lit "name"), PStr (lit "my-skill"));
          (PStr (lit "description"), PStr long_tag)]
         long_tag eq_refl _ eq_refl eq_refl eq_refl eq_refl eq_refl) _).
    + eexists. split; reflexivity.
    + left. apply mem_char_iff. vm_compute. reflexivity.
Defined.

(** ** The size gate (lines 100-105) *)

(** C5: for a document that passes the gates on the header, with [n] the
    number of lines of the whole text: if [n] is more than 500 the verdict
    is the failure that reports [n] and the maximum 500; otherwise the
    document is valid and the message reports [n]. *)
Theorem size_gate (W : World) (skill_path content : pystr) (d : dict) :
  has_document W skill_path content ->
  header_loads W content (Ok (PDict d)) ->
  check_unexpected d = Next tt ->
  check_required d = Next tt ->
  validate_name d = Next tt ->
  validate_description d = Next tt ->
  (500 < List.length (splitlines content) ->
   validate_skill W skill_path
   = Ok (false,
         lit "SKILL.md too long ("
         ++ of_nat (List.length (splitlines content))
         ++ lit " lines). Recommended max: 500"))
  /\
  (List.length (splitlines content) <= 500 ->
   validate_skill W skill_path
   = Ok (true,
         lit "Skill is valid! ("
         ++ of_nat (List.length (splitlines content)) ++ lit " lines)")).
Proof.
  intros Hdoc Hload H1 H2 H3 H4.
  rewrite (validate_skill_header W skill_path content d Hdoc Hload).
  unfold validate_frontmatter. rewrite H1, H2, H3, H4.
  cbn [bind]. unfold check_line_count. split; intros H.
  - apply Nat.ltb_lt in H. rewrite H. reflexivity.
  - apply Nat.ltb_ge in H. rewrite H. reflexivity.
Qed.

Lemma size_gate_witness :
  validate_skill (one_skill (good_document 496) good_table) (lit "skill")
  = Ok (true, lit "Skill is valid! (500 lines)")
  /\ validate_skill (one_skill (good_document 497) good_table)
       (lit "skill")
     = Ok (false, lit "SKILL.md too long (501 lines). Recommended max: 500").
Proof.
  split.
  - refine (proj2
      (size_gate (one_skill (good_document 496) good_table) (lit "skill")
         (good_document 496)
         [(PStr (lit "name"), PStr (lit "my-skill"));
          (PStr (lit "description"), PStr (lit "A sample skill"))]
         eq_refl _ eq_refl eq_refl eq_refl eq_refl) _).
    + exists good_header. split; reflexivity.
    + vm_compute. lia.
  - refine (proj1
      (size_gate (one_skill (good_document 497) good_table) (lit "skill")
         (good_document 497)
         [(PStr (lit "name"), PStr (lit "my-skill"));
          (PStr (lit "description"), PStr (lit "A sample skill"))]
         eq_refl _ eq_refl eq_refl eq_refl eq_refl) _).
    + exists good_header. split; reflexivity.
    + vm_compute. lia.
Defined.

(** The line count is the number of lines of a text written as
    newline-ended lines. *)
Lemma splitlines_from_line (l cur rest : pystr) :
  forallb (fun c => negb (is_linebreak c)) l = true ->
  splitlines_from cur (l ++ nl ++ rest)
  = (rev cur ++ l) :: splitlines_from [] rest.
Proof.
  revert cur; induction l as [|c l IH]; intros cur H.
  - simpl. now rewrite app_nil_r.
  - simpl in H. apply andb_prop in H as [Hc Hl].
    apply negb_true_iff in Hc. simpl. rewrite Hc, (IH _ Hl). simpl.
    now rewrite <- app_assoc.
Qed.

Lemma splitlines_unlines (lines : list pystr) :
  Forall (fun l => forallb (fun c => negb (is_linebreak c)) l = true)
    lines ->
  splitlines (unlines lines) = lines.
Proof.
  unfold splitlines, unlines.
  induction 1 as [|l lines Hl _ IH]; [reflexivity|].
  simpl. rewrite <- app_assoc, (splitlines_from_line l [] _ Hl), IH.
  reflexivity.
Qed.

(** ** Key-set and required-field gates (lines 61-73) *)

(** When all the keys outside the schema are strings, they are reported,
    sorted, before any required field is looked at. *)
Lemma unexpected_keys_reported (W : World) (skill_path content : pystr)
    (d : dict) (names : list pystr) :
  has_document W skill_path content ->
  header_loads W content (Ok (PDict d)) ->
  unexpected_keys d <> [] ->
  all_str (unexpected_keys d) = Some names ->
  validate_skill W skill_path
  = Ok (false,
        lit "Unexpected key(s) in frontmatter: "
        ++ join (lit ", ") (sorted (nodup (list_eq_dec N.eq_dec) names))
        ++ lit ". Allowed: "
        ++ lit "allowed-tools, description, license, metadata, name").
Proof.
  intros Hdoc Hload Hne Hs.
  rewrite (validate_skill_header W skill_path content d Hdoc Hload).
  unfold validate_frontmatter, check_unexpected.
  fold (unexpected_keys d). rewrite Hs.
  destruct (unexpected_keys d); [congruence|]. reflexivity.
Qed.

(** Without keys outside the schema, a missing [name] is reported before
    a missing [description]. *)
Lemma required_fields_order (W : World) (skill_path content : pystr)
    (d : dict) :
  has_document W skill_path content ->
  header_loads W content (Ok (PDict d)) ->
  unexpected_keys d = [] ->
  (has_key (lit "name") d = false ->
   validate_skill W skill_path
   = Ok (false, lit "Missing 'name' in frontmatter"))
  /\
  (has_key (lit "name") d = true ->
   has_key (lit "description") d = false ->
   validate_skill W skill_path
   = Ok (false, lit "Missing 'description' in frontmatter")).
Proof.
  intros Hdoc Hload Hu.
  rewrite (validate_skill_header W skill_path content d Hdoc Hload).
  unfold validate_frontmatter, check_required.
  rewrite (check_unexpected_pass d Hu).
  split; [intros -> | intros -> ->]; reflexivity.
Qed.

Example extra_keys_before_missing_name :
  has_key (lit "name") extra_key_dict = false
  /\ validate_skill (one_skill extra_key_document extra_key_table)
       (lit "skill")
     = Ok (false,
           lit "Unexpected key(s) in frontmatter: author, version. "
           ++ lit "Allowed: "
           ++ lit "allowed-tools, description, license, metadata, name").
Proof. split; reflexivity. Qed.

(** C4 at a header whose only key is the integer 1 (PyYAML loads the
    line [1: x] as the dictionary with the key 1): the header lacks
    [name] and has a key outside the schema, and the key-set gate does
    not return the unexpected-key message: building the message raises
    [TypeError]. *)
Theorem unexpected_int_key_raises :
  has_key (lit "name") int_key_dict = false
  /\ unexpected_keys int_key_dict = [PInt 1]
  /\ header_loads (one_skill int_key_document int_key_table)
       int_key_document (Ok (PDict int_key_dict))
  /\ validate_skill (one_skill int_key_document int_key_table)
       (lit "skill") = Exn TypeError.
Proof.
  repeat split. exists (lit "1: x"). split; reflexivity.
Qed.

(** ** Exceptions (lines 42-67) *)

(** A parser error of class [YAMLError] becomes a verdict. *)
Lemma yaml_error_converted (W : World) (skill_path content e : pystr) :
  has_document W skill_path content ->
  header_loads W content (Exn (YAMLError e)) ->
  validate_skill W skill_path
  = Ok (false, lit "Invalid YAML in frontmatter: " ++ e).
Proof.
  intros Hdoc (text & Hm & Hl).
  rewrite (validate_skill_document W skill_path content Hdoc),
    (validate_content_extracted W content text Hm).
  unfold parse_frontmatter. rewrite Hl. reflexivity.
Qed.

(** An exception of [read_text()] reaches the caller. *)
Lemma read_error_escapes (W : World) (skill_path : pystr) (e : py_exn) :
  fs W (joinpath W skill_path (lit "SKILL.md")) = Entry (Exn e) ->
  validate_skill W skill_path = Exn e.
Proof.
  intros H. unfold validate_skill, validate_skill_body.
  rewrite H. reflexivity.
Qed.

(** C7 fails on the code: when a key of the header outside the schema is
    not a string, the call raises [TypeError] instead of returning a
    pair. *)
Theorem non_string_key_escapes (W : World) (skill_path content : pystr)
    (d : dict) :
  has_document W skill_path content ->
  header_loads W content (Ok (PDict d)) ->
  all_str (unexpected_keys d) = None ->
  validate_skill W skill_path = Exn TypeError
  /\ forall r, validate_skill W skill_path <> Ok r.
Proof.
  intros Hdoc Hload Hs.
  rewrite (validate_skill_header W skill_path content d Hdoc Hload).
  unfold validate_frontmatter, check_unexpected.
  fold (unexpected_keys d). rewrite Hs.
  destruct (unexpected_keys d); [discriminate|].
  split; [reflexivity | discriminate].
Qed.

Lemma non_string_key_escapes_witness :
  validate_skill (one_skill int_key_document int_key_table) (lit "skill")
  = Exn TypeError.
Proof.
  refine (proj1
    (non_string_key_escapes (one_skill int_key_document int_key_table)
       (lit "skill") int_key_document int_key_dict eq_refl _ eq_refl)).
  exists (lit "1: x"). split; reflexivity.
Defined.

(** ** The command line (lines 108-123) *)




(** ** Further properties of quick_validate.py *)

(** Lines 36-39: without SKILL.md under the path the verdict is
    "SKILL.md not found"; nothing is read or parsed. *)
Theorem missing_document_rejected (W : World) (skill_path : pystr) :
  fs W (joinpath W skill_path (lit "SKILL.md")) = NoEntry ->
  validate_skill W skill_path = Ok (false, lit "SKILL.md not found").
Proof.
  intros H. unfold validate_skill, validate_skill_body.
  rewrite H. reflexivity.
Qed.

Lemma missing_document_rejected_witness :
  validate_skill (one_skill (good_document 0) good_table) (lit "elsewhere")
  = Ok (false, lit "SKILL.md not found").
Proof.
  apply (missing_document_rejected
           (one_skill (good_document 0) good_table) (lit "elsewhere")).
  reflexivity.
Defined.

(** Lines 54-59: an exception of the parser that is not a [YAMLError]
    is not caught and reaches the caller. *)
Theorem parser_error_escapes (W : World) (skill_path content : pystr)
    (e : py_exn) :
  has_document W skill_path content ->
  header_loads W content (Exn e) ->
  (forall text, e <> YAMLError text) ->
  validate_skill W skill_path = Exn e.
Proof.
  intros Hdoc (text & Hm & Hl) He.
  rewrite (validate_skill_document W skill_path content Hdoc),
    (validate_content_extracted W content text Hm).
  unfold parse_frontmatter. rewrite Hl.
  destruct e; try reflexivity. now elim (He text0).
Qed.

Lemma parser_error_escapes_witness :
  validate_skill
    (one_skill (good_document 0) [(good_header, Exn ValueError)])
    (lit "skill")
  = Exn ValueError.
Proof.
  apply (parser_error_escapes
           (one_skill (good_document 0) [(good_header, Exn ValueError)])
           (lit "skill") (good_document 0) ValueError).
  - reflexivity.
  - exists good_header. split; reflexivity.
  - discriminate.
Defined.

(** Lines 47-51: the extracted header never holds a newline followed by
    three hyphens. *)
Theorem extracted_header_has_no_delimiter (content text : pystr) :
  re_match_frontmatter content = Some text ->
  contains (nl ++ lit "---") text = false.
Proof.
  intros H. apply re_match_frontmatter_iff in H as [[rest E] Hmin].
  destruct (contains (nl ++ lit "---") text) eqn:C; [|reflexivity].
  apply contains_iff in C as (a & b & Et). exfalso.
  specialize (Hmin a (b ++ nl ++ lit "---" ++ rest)).
  assert (L : List.length text <= List.length a).
  { apply Hmin. rewrite E, Et.
    change (nl ++ lit "---") with [10%N; 45%N; 45%N; 45%N].
    rewrite <- !app_assoc. reflexivity. }
  rewrite Et, !length_app in L. simpl in L. lia.
Qed.

Lemma extracted_header_has_no_delimiter_witness :
  contains (nl ++ lit "---") good_header = false.
Proof.
  apply (extracted_header_has_no_delimiter (good_document 3) good_header).
  reflexivity.
Defined.

(** Lines 76-78: at the name gate, a name that is not a string is
    rejected with the name of its type. *)
Theorem name_type_gate (W : World) (skill_path content : pystr) (d : dict)
    (v : pyval) :
  has_document W skill_path content ->
  header_loads W content (Ok (PDict d)) ->
  unexpected_keys d = [] ->
  has_key (lit "description") d = true ->
  get (lit "name") (PStr []) d = v ->
  (forall s, v <> PStr s) ->
  validate_skill W skill_path
  = Ok (false, lit "Name must be a string, got " ++ type_name v).
Proof.
  intros Hdoc Hload Hu Hd Hget Hv.
  assert (Hn : has_key (lit "name") d = true).
  { apply (has_key_of_get _ _ _ _ Hget). apply Hv. }
  rewrite (validate_skill_from_name W skill_path content d
             Hdoc Hload Hu Hn Hd).
  unfold validate_name. rewrite Hget.
  destruct v; try reflexivity. now elim (Hv s).
Qed.

(** Lines 90-92: at the description gate, a description that is not a
    string is rejected with the name of its type. *)
Theorem description_type_gate (W : World) (skill_path content : pystr)
    (d : dict) (v : pyval) :
  has_document W skill_path content ->
  header_loads W content (Ok (PDict d)) ->
  unexpected_keys d = [] ->
  has_key (lit "name") d = true ->
  validate_name d = Next tt ->
  get (lit "description") (PStr []) d = v ->
  (forall s, v <> PStr s) ->
  validate_skill W skill_path
  = Ok (false, lit "Description must be a string, got " ++ type_name v).
Proof.
  intros Hdoc Hload Hu Hn Hname Hget Hv.
  assert (Hd : has_key (lit "description") d = true).
  { apply (has_key_of_get _ _ _ _ Hget). apply Hv. }
  rewrite (validate_skill_from_name W skill_path content d
             Hdoc Hload Hu Hn Hd), Hname.
  unfold validate_description. rewrite Hget.
  destruct v; try reflexivity. now elim (Hv s).
Qed.

(** The description gate on a string-typed description: it lets the
    description through exactly when the trimmed description is empty, or
    has no angle bracket and at most 1024 characters. *)
Lemma description_gate (d : dict) (s : pystr) :
  get (lit "description") (PStr []) d = PStr s ->
  (validate_description d = Next tt /\
   ~ In 60%N (strip s) /\ ~ In 62%N (strip s) /\
   List.length (strip s) <= 1024)
  \/
  (exists msg, validate_description d = Return (false, msg) /\
   (In 60%N (strip s) \/ In 62%N (strip s) \/
    1024 < List.length (strip s))).
Proof.
  intros Hget. unfold validate_description. rewrite Hget.
  destruct (strip s) as [|c t] eqn:Et.
  { left. simpl. intuition lia. }
  rewrite <- Et. clear Et. generalize (strip s). clear. intros t.
  cbn [truthy].
  destruct (truthy t) eqn:Ht.
  2:{ left. destruct t; [|discriminate]. simpl. intuition lia. }
  destruct (mem_char 60 t) eqn:H60.
  { right. eexists. split; [reflexivity|]. left. now apply mem_char_iff. }
  destruct (mem_char 62 t) eqn:H62.
  { right. eexists. split; [reflexivity|]. right. left.
    now apply mem_char_iff. }
  cbn [orb].
  destruct (1024 <? List.length t) eqn:L.
  { right. eexists. split; [reflexivity|]. right. right.
    now apply Nat.ltb_lt. }
  left. apply Nat.ltb_ge in L. repeat split; auto.
  - rewrite <- mem_char_iff. congruence.
  - rewrite <- mem_char_iff. congruence.
Qed.

Lemma name_type_gate_witness :
  validate_skill (one_skill list_name_document list_name_table)
    (lit "skill")
  = Ok (false, lit "Name must be a string, got list").
Proof.
  refine (name_type_gate (one_skill list_name_document list_name_table)
            (lit "skill") list_name_document
            [(PStr (lit "name"), PList [PStr (lit "a"); PStr (lit "b")]);
             (PStr (lit "description"), PStr (lit "A sample skill"))]
            (PList [PStr (lit "a"); PStr (lit "b")])
            eq_refl _ eq_refl eq_refl eq_refl _).
  - eexists. split; reflexivity.
  - discriminate.
Defined.

Lemma description_type_gate_witness :
  validate_skill
    (one_skill int_description_document int_description_table)
    (lit "skill")
  = Ok (false, lit "Description must be a string, got int").
Proof.
  refine (description_type_gate
            (one_skill int_description_document int_description_table)
            (lit "skill") int_description_document
            [(PStr (lit "name"), PStr (lit "my-skill"));
             (PStr (lit "description"), PInt 42)]
            (PInt 42) eq_refl _ eq_refl eq_refl eq_refl eq_refl _).
  - eexists. split; reflexivity.
  - discriminate.
Defined.

(** Lines 93-98: at the description gate, a trimmed description without
    angle brackets is rejected exactly when it has more than 1024
    characters, and the message gives its length. *)
Theorem description_length_gate (W : World) (skill_path content : pystr)
    (d : dict) (s : pystr) :
  has_document W skill_path content ->
  header_loads W content (Ok (PDict d)) ->
  unexpected_keys d = [] ->
  has_key (lit "name") d = true ->
  has_key (lit "description") d = true ->
  validate_name d = Next tt ->
  get (lit "description") (PStr []) d = PStr s ->
  ~ In 60%N (strip s) -> ~ In 62%N (strip s) ->
  (1024 < List.length (strip s) ->
   validate_skill W skill_path
   = Ok (false,
         lit "Description too long (" ++ of_nat (List.length (strip s))
         ++ lit " chars). Max: 1024"))
  /\
  (List.length (strip s) <= 1024 ->
   validate_skill W skill_path = run (check_line_count content)).
Proof.
  intros Hdoc Hload Hu Hn Hd Hname Hget H60 H62.
  rewrite (validate_skill_from_name W skill_path content d
             Hdoc Hload Hu Hn Hd), Hname.
  unfold validate_description. rewrite Hget. cbn [bind].
  assert (E60 : mem_char 60 (strip s) = false).
  { destruct (mem_char 60 (strip s)) eqn:E; [|reflexivity].
    now apply mem_char_iff in E. }
  assert (E62 : mem_char 62 (strip s) = false).
  { destruct (mem_char 62 (strip s)) eqn:E; [|reflexivity].
    now apply mem_char_iff in E. }
  rewrite E60, E62. cbn [orb]. split; intros L.
  - assert (Ht : truthy (strip s) = true).
    { destruct (strip s); [simpl in L; lia | reflexivity]. }
    apply Nat.ltb_lt in L. rewrite Ht, L. reflexivity.
  - apply Nat.ltb_ge in L. rewrite L.
    destruct (truthy (strip s)); reflexivity.
Qed.

Lemma description_length_gate_witness :
  validate_skill (one_skill (letters_document 1025) (letters_table 1025))
    (lit "skill")
  = Ok (false, lit "Description too long (1025 chars). Max: 1024")
  /\ validate_skill (one_skill (letters_document 1024) (letters_table 1024))
       (lit "skill")
     = Ok (true, lit "Skill is valid! (4 lines)").
Proof.
  split.
  - refine (proj1
      (description_length_gate
         (one_skill (letters_document 1025) (letters_table 1025))
         (lit "skill") (letters_document 1025) (letters_dict 1025)
         (letters 1025) eq_refl _ eq_refl eq_refl eq_refl eq_refl eq_refl
         _ _) _).
    + eexists. split; reflexivity.
    + intros H. apply mem_char_iff in H. vm_compute in H. discriminate.
    + intros H. apply mem_char_iff in H. vm_compute in H. discriminate.
    + vm_compute. lia.
  - refine (proj2
      (description_length_gate
         (one_skill (letters_document 1024) (letters_table 1024))
         (lit "skill") (letters_document 1024) (letters_dict 1024)
         (letters 1024) eq_refl _ eq_refl eq_refl eq_refl eq_refl eq_refl
         _ _) _).
    + eexists. split; reflexivity.
    + intros H. apply mem_char_iff in H. vm_compute in H. discriminate.
    + intros H. apply mem_char_iff in H. vm_compute in H. discriminate.
    + vm_compute. lia.
Defined.

Lemma check_unexpected_next (d : dict) :
  check_unexpected d = Next tt -> unexpected_keys d = [].
Proof.
  unfold check_unexpected. fold (unexpected_keys d).
  destruct (unexpected_keys d) as [|k l]; [reflexivity|].
  cbn [truthy]. destruct (all_str (k :: l)); discriminate.
Qed.

Lemma flow_cases {A : Type} (c : flow A) :
  (exists a, c = Next a) \/ (exists r, c = Return r) \/ (exists e, c = Raise e).
Proof. destruct c; eauto. Qed.

(** Lines 24-105: a valid verdict is given only to a document that obeys
    every rule: the header is extracted and loads as a dictionary whose
    keys are all in the schema, [name] and [description] are present and
    are strings, the trimmed name is empty or obeys the name rule, the
    trimmed description has no angle bracket and at most 1024 characters,
    and the text has at most 500 lines, which the message reports. *)
Theorem valid_verdict_sound (W : World) (skill_path msg : pystr) :
  validate_skill W skill_path = Ok (true, msg) ->
  exists content d name description,
    has_document W skill_path content /\
    header_loads W content (Ok (PDict d)) /\
    unexpected_keys d = [] /\
    has_key (lit "name") d = true /\
    has_key (lit "description") d = true /\
    get (lit "name") (PStr []) d = PStr name /\
    (strip name = [] \/ spec_name_ok (strip name)) /\
    get (lit "description") (PStr []) d = PStr description /\
    ~ In 60%N (strip description) /\ ~ In 62%N (strip description) /\
    List.length (strip description) <= 1024 /\
    List.length (splitlines content) <= 500 /\
    msg = lit "Skill is valid! ("
          ++ of_nat (List.length (splitlines content)) ++ lit " lines)".
Proof.
  unfold validate_skill, validate_skill_body.
  destruct (fs W (joinpath W skill_path (lit "SKILL.md")))
    as [|[content|e]] eqn:Hfs; [discriminate| |discriminate].
  cbn [path_exists negb bind path_read_text call].
  unfold validate_content.
  destruct (startswith (lit "---") content); [|discriminate].
  cbn [negb bind].
  destruct (re_match_frontmatter content) as [text|] eqn:Hm;
    [|discriminate].
  cbn [bind]. unfold parse_frontmatter.
  destruct (safe_load W text) as [v|e] eqn:Hl;
    [|destruct e; discriminate].
  destruct v; try discriminate. rename items into d.
  cbn [bind]. unfold validate_frontmatter.
  destruct (flow_cases (check_unexpected d)) as [[[] H1]|[[r H1]|[e H1]]];
    rewrite H1; cbn [bind]; [| |discriminate].
  2:{ unfold check_unexpected in H1.
      destruct (truthy _); [|discriminate].
      destruct (all_str _); [|discriminate].
      injection H1 as <-. discriminate. }
  apply check_unexpected_next in H1.
  unfold check_required.
  destruct (has_key (lit "name") d) eqn:Hn; [|discriminate].
  destruct (has_key (lit "description") d) eqn:Hd; [|discriminate].
  cbn [negb bind].
  destruct (get (lit "name") (PStr []) d) as [| | | |name| | | | | |] eqn:Gn;
    try (unfold validate_name; rewrite Gn; discriminate).
  destruct (name_gate d name Gn) as [[Hok Hv]|[_ (m & _ & Hv)]];
    rewrite Hv; cbn [bind]; [|discriminate].
  destruct (get (lit "description") (PStr []) d)
    as [| | | |description| | | | | |] eqn:Gd;
    try (unfold validate_description; rewrite Gd; discriminate).
  destruct (description_gate d description Gd)
    as [(Hv' & H60 & H62 & L)|(m & Hv' & _)];
    rewrite Hv'; cbn [bind]; [|discriminate].
  unfold check_line_count.
  destruct (500 <? List.length (splitlines content)) eqn:Hc;
    [discriminate|].
  cbn [run]. intros [= <-].
  apply Nat.ltb_ge in Hc.
  exists content, d, name, description.
  repeat (split; [first [assumption | reflexivity
                        | exists text; split; assumption]|]).
  reflexivity.
Qed.

Lemma valid_verdict_sound_witness :
  exists content d name description,
    has_document (one_skill (good_document 0) good_table) (lit "skill")
      content /\
    header_loads (one_skill (good_document 0) good_table) content
      (Ok (PDict d)) /\
    unexpected_keys d = [] /\
    has_key (lit "name") d = true /\
    has_key (lit "description") d = true /\
    get (lit "name") (PStr []) d = PStr name /\
    (strip name = [] \/ spec_name_ok (strip name)) /\
    get (lit "description") (PStr []) d = PStr description /\
    ~ In 60%N (strip description) /\ ~ In 62%N (strip description) /\
    List.length (strip description) <= 1024 /\
    List.length (splitlines content) <= 500 /\
    lit "Skill is valid! (4 lines)"
    = lit "Skill is valid! ("
      ++ of_nat (List.length (splitlines content)) ++ lit " lines)".
Proof.
  apply (valid_verdict_sound (one_skill (good_document 0) good_table)
           (lit "skill") (lit "Skill is valid! (4 lines)")).
  reflexivity.
Defined.

(** ** The order of the reported keys *)

Lemma ltb_irrefl (a : pystr) : ltb a a = false.
Proof.
  induction a as [|x a IH]; [reflexivity|].
  simpl. now rewrite N.ltb_irrefl, N.eqb_refl, IH.
Qed.

Lemma ltb_trans (a b c : pystr) :
  ltb a b = true -> ltb b c = true -> ltb a c = true.
Proof.
  revert b c; induction a as [|x a IH]; intros [|y b] [|z c]; simpl;
    try easy.
  rewrite !orb_true_iff, !andb_true_iff, !N.ltb_lt, !N.eqb_eq.
  intros [H1|[H1 H1']] [H2|[H2 H2']].
  - left. lia.
  - left. lia.
  - left. lia.
  - right. split; [lia | eauto].
Qed.

Lemma ltb_total (a b : pystr) :
  ltb a b = false -> a = b \/ ltb b a = true.
Proof.
  revert b; induction a as [|x a IH]; intros [|y b]; simpl; auto;
    try discriminate.
  rewrite orb_false_iff, andb_false_iff, N.ltb_ge.
  rewrite orb_true_iff, andb_true_iff, N.ltb_lt, N.eqb_eq.
  intros [H1 H2].
  destruct (N.eq_dec x y) as [->|Hxy].
  - destruct H2 as [H2|H2]; [rewrite N.eqb_refl in H2; discriminate|].
    destruct (IH b H2) as [->|H]; auto.
  - right. left. lia.
Qed.

Lemma insert_sorted_in (x y : pystr) (l : list pystr) :
  In y (insert_sorted x l) <-> y = x \/ In y l.
Proof.
  induction l as [|z l IH]; simpl.
  - intuition.
  - destruct (ltb z x); simpl; rewrite ?IH; intuition.
Qed.

Lemma sorted_in (y : pystr) (l : list pystr) : In y (sorted l) <-> In y l.
Proof.
  unfold sorted. induction l as [|x l IH]; simpl; [reflexivity|].
  rewrite insert_sorted_in, IH. intuition.
Qed.

Lemma insert_sorted_ascending (x : pystr) (l : list pystr) :
  ascending l -> ~ In x l -> ascending (insert_sorted x l).
Proof.
  unfold ascending. induction 1 as [|y l Hl IH Hy]; intros Hx; simpl.
  - repeat constructor.
  - destruct (ltb y x) eqn:E.
    + constructor.
      * apply IH. intros H. apply Hx. now right.
      * apply Forall_forall. intros z Hz.
        apply insert_sorted_in in Hz as [->|Hz]; [assumption|].
        rewrite Forall_forall in Hy. auto.
    + destruct (ltb_total y x E) as [->|Hxy].
      { exfalso. apply Hx. now left. }
      constructor; [now constructor|].
      constructor; [assumption|].
      apply Forall_forall. intros z Hz.
      rewrite Forall_forall in Hy.
      apply (ltb_trans x y z Hxy). auto.
Qed.

Lemma sorted_ascending (l : list pystr) : NoDup l -> ascending (sorted l).
Proof.
  unfold sorted. induction 1 as [|x l Hx Hl IH]; simpl.
  - constructor.
  - apply insert_sorted_ascending; [assumption|].
    now rewrite (sorted_in x l).
Qed.

Lemma all_str_in (l : list pyval) (names : list pystr) (s : pystr) :
  all_str l = Some names -> In s names <-> In (PStr s) l.
Proof.
  revert names; induction l as [|k l IH]; intros names; simpl.
  - intros [= <-]. reflexivity.
  - destruct k; try discriminate.
    destruct (all_str l) as [r|]; [|discriminate].
    intros [= <-]. simpl. rewrite (IH r eq_refl).
    split; intros [H|H]; auto; left; congruence.
Qed.

(** Lines 61-67: when the keys outside the schema are strings, the
    verdict lists exactly these keys, each once, in ascending order of
    their code points, and then the schema; required fields are not
    looked at. *)
Theorem unexpected_keys_listed (W : World) (skill_path content : pystr)
    (d : dict) (names : list pystr) :
  has_document W skill_path content ->
  header_loads W content (Ok (PDict d)) ->
  unexpected_keys d <> [] ->
  all_str (unexpected_keys d) = Some names ->
  exists listed,
    validate_skill W skill_path
    = Ok (false,
          lit "Unexpected key(s) in frontmatter: "
          ++ join (lit ", ") listed
          ++ lit ". Allowed: "
          ++ lit "allowed-tools, description, license, metadata, name")
    /\ ascending listed
    /\ forall s, In s listed <->
                 In (PStr s) (keys d) /\ is_allowed (PStr s) = false.
Proof.
  intros Hdoc Hload Hne Hs.
  exists (sorted (nodup (list_eq_dec N.eq_dec) names)).
  split; [|split].
  - apply (unexpected_keys_reported W skill_path content d names);
      assumption.
  - apply sorted_ascending, NoDup_nodup.
  - intros s. rewrite sorted_in, nodup_In, (all_str_in _ _ s Hs).
    unfold unexpected_keys. rewrite filter_In, negb_true_iff.
    reflexivity.
Qed.

Lemma unexpected_keys_listed_witness :
  exists listed,
    validate_skill (one_skill extra_key_document extra_key_table)
      (lit "skill")
    = Ok (false,
          lit "Unexpected key(s) in frontmatter: "
          ++ join (lit ", ") listed
          ++ lit ". Allowed: "
          ++ lit "allowed-tools, description, license, metadata, name")
    /\ ascending listed
    /\ forall s, In s listed <->
                 In (PStr s) (keys extra_key_dict)
                 /\ is_allowed (PStr s) = false.
Proof.
  refine (unexpected_keys_listed
            (one_skill extra_key_document extra_key_table) (lit "skill")
            extra_key_document extra_key_dict
            [lit "version"; lit "author"] eq_refl _ _ eq_refl).
  - eexists. split; reflexivity.
  - discriminate.
Defined.

Lemma yaml_error_converted_witness :
  validate_skill
    (one_skill (good_document 0)
       [(good_header,
         Exn (YAMLError (lit "mapping values are not allowed here")))])
    (lit "skill")
  = Ok (false,
        lit "Invalid YAML in frontmatter: mapping values are not allowed here").
Proof.
  apply (yaml_error_converted
           (one_skill (good_document 0)
              [(good_header,
                Exn (YAMLError (lit "mapping values are not allowed here")))])
           (lit "skill") (good_document 0)
           (lit "mapping values are not allowed here")).
  - reflexivity.
  - exists good_header. split; reflexivity.
Defined.

Lemma read_error_escapes_witness :
  validate_skill
    {| joinpath := fun a b => a ++ lit "/" ++ b;
       fs := fun _ => Entry (Exn UnicodeDecodeError);
       safe_load := table_load [] |}
    (lit "skill")
  = Exn UnicodeDecodeError.
Proof.
  apply (read_error_escapes
           {| joinpath := fun a b => a ++ lit "/" ++ b;
              fs := fun _ => Entry (Exn UnicodeDecodeError);
              safe_load := table_load [] |}
           (lit "skill") UnicodeDecodeError).
  reflexivity.
Defined.

Lemma required_fields_order_witness :
  validate_skill
    (one_skill (unlines [lit "---"; lit "license: MIT"; lit "---"])
       [(lit "license: MIT",
         Ok (PDict [(PStr (lit "license"), PStr (lit "MIT"))]))])
    (lit "skill")
  = Ok (false, lit "Missing 'name' in frontmatter")
  /\ validate_skill
       (one_skill (unlines [lit "---"; lit "name: my-skill"; lit "---"])
          [(lit "name: my-skill",
            Ok (PDict [(PStr (lit "name"), PStr (lit "my-skill"))]))])
       (lit "skill")
     = Ok (false, lit "Missing 'description' in frontmatter").
Proof.
  split.
  - refine (proj1
      (required_fields_order
         (one_skill (unlines [lit "---"; lit "license: MIT"; lit "---"])
            [(lit "license: MIT",
              Ok (PDict [(PStr (lit "license"), PStr (lit "MIT"))]))])
         (lit "skill")
         (unlines [lit "---"; lit "license: MIT"; lit "---"])
         [(PStr (lit "license"), PStr (lit "MIT"))]
         eq_refl _ eq_refl) eq_refl).
    exists (lit "license: MIT"). split; reflexivity.
  - refine (proj2
      (required_fields_order
         (one_skill (unlines [lit "---"; lit "name: my-skill"; lit "---"])
            [(lit "name: my-skill",
              Ok (PDict [(PStr (lit "name"), PStr (lit "my-skill"))]))])
         (lit "skill")
         (unlines [lit "---"; lit "name: my-skill"; lit "---"])
         [(PStr (lit "name"), PStr (lit "my-skill"))]
         eq_refl _ eq_refl) eq_refl eq_refl).
    exists (lit "name: my-skill"). split; reflexivity.
Defined.

(** ** Properties of setup-project.py *)

Section SetupProjectFacts.

Import SetupProject.

Variable E : Env.

(** On a dictionary of descriptions every option is formatted; the
    description is the entry under the option's name, and the name itself
    when there is no entry. *)
Lemma option_items_dict (colors : list (pystr * pystr))
    (items : list (pystr * jval)) :
  option_items E colors (JDict items)
  = Val (map (fun nc =>
                option_text (fst nc) (snd nc)
                  match lookup (fst nc) items with
                  | Some v => format E v
                  | None => fst nc
                  end) colors).
Proof.
  induction colors as [|[name color] colors IH]; [reflexivity|].
  simpl. rewrite IH. reflexivity.
Qed.

Lemma build_options_dict (colors : list (pystr * pystr))
    (items : list (pystr * jval)) :
  build_single_select_options E colors (JDict items)
  = Val (options_text E colors items).
Proof.
  unfold build_single_select_options. rewrite option_items_dict.
  reflexivity.
Qed.

(** Lines 89-95: the options depend on the descriptions only through the
    entries under the names of [colors]; other entries of the locale are
    ignored. *)
Theorem options_ignore_other_descriptions
    (colors : list (pystr * pystr)) (items1 items2 : list (pystr * jval)) :
  (forall name color,
      In (name, color) colors -> lookup name items1 = lookup name items2) ->
  build_single_select_options E colors (JDict items1)
  = build_single_select_options E colors (JDict items2).
Proof.
  intros H. unfold build_single_select_options.
  rewrite !option_items_dict. do 4 f_equal.
  apply map_ext_in. intros [name color] Hin. simpl.
  now rewrite (H name color Hin).
Qed.

(** Lines 92-94: an option without a description in the locale gets its
    own name as description. *)
Theorem options_default_to_name
    (colors : list (pystr * pystr)) (items : list (pystr * jval)) :
  (forall name color, In (name, color) colors -> lookup name items = None) ->
  build_single_select_options E colors (JDict items)
  = Val (lit "["
         ++ join (lit ", ")
              (map (fun nc => option_text (fst nc) (snd nc) (fst nc)) colors)
         ++ lit "]").
Proof.
  intros H. unfold build_single_select_options.
  rewrite option_items_dict. do 4 f_equal.
  apply map_ext_in. intros [name color] Hin. simpl.
  now rewrite (H name color Hin).
Qed.

(** Lines 91-95: descriptions that are not a dictionary make the call
    raise [AttributeError], except when there is no option at all: then
    the descriptions are never consulted and the result is []. *)
Theorem options_need_dictionary
    (colors : list (pystr * pystr)) (descriptions : jval) :
  (forall items, descriptions <> JDict items) ->
  build_single_select_options E colors descriptions
  = match colors with
    | [] => Val (lit "[]")
    | _ :: _ => Exc AttributeError
    end.
Proof.
  intros H. unfold build_single_select_options.
  destruct colors as [|[name color] colors]; [reflexivity|].
  simpl. destruct descriptions; try reflexivity. now elim (H items).
Qed.

(** [run_graphql] after [subprocess.run], case by case. *)
Lemma run_graphql_cases (query : pystr) (st : io) :
  let st1 := {| out := out st; calls := calls st ++ [gh_command query] |} in
  let report := fun s : pystr =>
    match stdout_error E (out st) s with
    | None =>
        (Val (@None jval),
         {| out := print s (out st);
            calls := calls st ++ [gh_command query] |})
    | Some x => (Exc x, st1)
    end in
  let handle := fun x : exn =>
    match x with
    | TimeoutExpired =>
        report (lit "Error: Command timed out after "
                ++ of_nat SUBPROCESS_TIMEOUT ++ lit "s")
    | JSONDecodeError e =>
        report (lit "Error: Failed to parse response: " ++ e)
    | _ => (Exc x, st1)
    end in
  run_graphql E query st
  = match subprocess_run E (calls st) (gh_command query) with
    | Completed returncode stdout_ stderr_ =>
        if Z.eqb returncode 0 then
          if truthy (strip stdout_) then
            match json_loads E stdout_ with
            | Val v => (Val (Some v), st1)
            | Exc x => handle x
            end
          else (Val None, st1)
        else
          match stdout_error E (out st) (lit "Error: " ++ stderr_) with
          | None =>
              (Val None,
               {| out := print (lit "Error: " ++ stderr_) (out st);
                  calls := calls st ++ [gh_command query] |})
          | Some x => handle x
          end
    | RunRaises x => handle x
    end.
Proof.
  assert (Hsay : forall s (st0 : io),
             bindM (say E s) (fun _ => ret (@None jval)) st0
             = match stdout_error E (out st0) s with
               | None => (Val None,
                          {| out := print s (out st0); calls := calls st0 |})
               | Some x => (Exc x, st0)
               end).
  { intros s st0. unfold bindM, say, ret.
    destruct (stdout_error E (out st0) s); reflexivity. }
  assert (Hh : forall x (st0 : io),
             match
               match x with
               | TimeoutExpired =>
                   Some (bindM
                           (say E (lit "Error: Command timed out after "
                                   ++ of_nat SUBPROCESS_TIMEOUT ++ lit "s"))
                           (fun _ => ret (@None jval)))
               | JSONDecodeError e =>
                   Some (bindM
                           (say E (lit "Error: Failed to parse response: "
                                   ++ e))
                           (fun _ => ret (@None jval)))
               | _ => None
               end
             with
             | Some handler => handler st0
             | None => (Exc x, st0)
             end
             = match x with
               | TimeoutExpired =>
                   match
                     stdout_error E (out st0)
                       (lit "Error: Command timed out after "
                        ++ of_nat SUBPROCESS_TIMEOUT ++ lit "s")
                   with
                   | None =>
                       (Val None,
                        {| out := print (lit "Error: Command timed out after "
                                         ++ of_nat SUBPROCESS_TIMEOUT
                                         ++ lit "s") (out st0);
                           calls := calls st0 |})
                   | Some y => (Exc y, st0)
                   end
               | JSONDecodeError e =>
                   match
                     stdout_error E (out st0)
                       (lit "Error: Failed to parse response: " ++ e)
                   with
                   | None =>
                       (Val None,
                        {| out := print (lit "Error: Failed to parse response: "
                                         ++ e) (out st0);
                           calls := calls st0 |})
                   | Some y => (Exc y, st0)
                   end
               | _ => (Exc x, st0)
               end).
  { intros x st0. destruct x; try reflexivity; apply Hsay. }
  cbv zeta. unfold run_graphql, try_except.
  unfold bindM at 1. unfold run_process.
  destruct (subprocess_run E (calls st) (gh_command query))
    as [rc o e|x]; cbn [returncode stdout stderr].
  - destruct (Z.eqb rc 0); cbn [negb].
    + destruct (truthy (strip o)); cbn [negb]; [|reflexivity].
      unfold bindM, lift, ret.
      destruct (json_loads E o) as [v|x]; [reflexivity|].
      apply (Hh x {| out := out st; calls := calls st ++ [gh_command query] |}).
    + rewrite Hsay. cbn [out calls].
      destruct (stdout_error E (out st) (lit "Error: " ++ e)) as [x|];
        [|reflexivity].
      apply (Hh x {| out := out st; calls := calls st ++ [gh_command query] |}).
  - apply (Hh x {| out := out st; calls := calls st ++ [gh_command query] |}).
Qed.

(** Lines 101-121: [run_graphql] returns a value exactly when the command
    ended with code 0, printed something that is not blank, and that
    output parsed as JSON. *)
Theorem run_graphql_returns_value (query : pystr) (st : io) (v : jval) :
  fst (run_graphql E query st) = Val (Some v) <->
  exists stdout_ stderr_,
    subprocess_run E (calls st) (gh_command query)
    = Completed 0 stdout_ stderr_ /\
    strip stdout_ <> [] /\
    json_loads E stdout_ = Val v.
Proof.
  rewrite run_graphql_cases. cbv zeta.
  assert (Hh : forall x : exn,
             fst match x with
                 | TimeoutExpired =>
                     match
                       stdout_error E (out st)
                         (lit "Error: Command timed out after "
                          ++ of_nat SUBPROCESS_TIMEOUT ++ lit "s")
                     with
                     | None =>
                         (Val (@None jval),
                          {| out := print (lit "Error: Command timed out after "
                                           ++ of_nat SUBPROCESS_TIMEOUT
                                           ++ lit "s") (out st);
                             calls := calls st ++ [gh_command query] |})
                     | Some y =>
                         (Exc y,
                          {| out := out st;
                             calls := calls st ++ [gh_command query] |})
                     end
                 | JSONDecodeError e =>
                     match
                       stdout_error E (out st)
                         (lit "Error: Failed to parse response: " ++ e)
                     with
                     | None =>
                         (Val None,
                          {| out := print (lit "Error: Failed to parse response: "
                                           ++ e) (out st);
                             calls := calls st ++ [gh_command query] |})
                     | Some y =>
                         (Exc y,
                          {| out := out st;
                             calls := calls st ++ [gh_command query] |})
                     end
                 | _ =>
                     (Exc x,
                      {| out := out st;
                         calls := calls st ++ [gh_command query] |})
                 end
             <> Val (Some v)).
  { intros x. destruct x; try discriminate;
      destruct (stdout_error E (out st) _); discriminate. }
  destruct (subprocess_run E (calls st) (gh_command query))
    as [rc o e|x] eqn:R.
  - destruct (Z.eqb rc 0) eqn:Hrc.
    + apply Z.eqb_eq in Hrc. subst rc.
      destruct (strip o) as [|c t] eqn:Hs; cbn [truthy].
      * split; [discriminate|]. intros (o' & e' & [= <- <-] & Hne & _).
        congruence.
      * destruct (json_loads E o) as [w|x] eqn:J.
        -- split.
           ++ intros [= <-]. exists o, e. rewrite Hs. repeat split; easy.
           ++ intros (o' & e' & [= <- <-] & _ & J'). cbn [fst]. congruence.
        -- split.
           ++ intros H. now elim (Hh x).
           ++ intros (o' & e' & [= <- <-] & _ & J'). congruence.
    + split.
      * intros H. exfalso.
        destruct (stdout_error E (out st) (lit "Error: " ++ e)) as [x|];
          [now elim (Hh x) | discriminate H].
      * intros (o' & e' & [= -> <- <-] & _). discriminate.
  - split.
    + intros H. now elim (Hh x).
    + intros (o' & e' & H & _). discriminate.
Qed.


End SetupProjectFacts.

Lemma options_ignore_other_descriptions_witness :
  SetupProject.build_single_select_options (demo_env [])
    [(lit "Icebox", lit "GRAY"); (lit "Done", lit "GREEN")]
    (SetupProject.JDict
       [(lit "Icebox", SetupProject.JStr (lit "Ideas"));
        (lit "Legacy", SetupProject.JStr (lit "No longer used"))])
  = SetupProject.build_single_select_options (demo_env [])
      [(lit "Icebox", lit "GRAY"); (lit "Done", lit "GREEN")]
      (SetupProject.JDict
         [(lit "Icebox", SetupProject.JStr (lit "Ideas"))]).
Proof.
  apply options_ignore_other_descriptions.
  intros name color [[= <- <-]|[[= <- <-]|[]]]; reflexivity.
Defined.

Lemma options_default_to_name_witness :
  SetupProject.build_single_select_options (demo_env [])
    [(lit "XS", lit "GRAY"); (lit "S", lit "GREEN")]
    (SetupProject.JDict [])
  = SetupProject.Val
      (lit "[{name: " ++ SetupProject.dq ++ lit "XS" ++ SetupProject.dq
       ++ lit ", color: GRAY, description: " ++ SetupProject.dq
       ++ lit "XS" ++ SetupProject.dq ++ lit "}, {name: "
       ++ SetupProject.dq ++ lit "S" ++ SetupProject.dq
       ++ lit ", color: GREEN, description: " ++ SetupProject.dq
       ++ lit "S" ++ SetupProject.dq ++ lit "}]").
Proof.
  rewrite options_default_to_name; [reflexivity|].
  intros name color _. reflexivity.
Defined.

Lemma options_need_dictionary_witness :
  SetupProject.build_single_select_options (demo_env [])
    [(lit "XS", lit "GRAY")] SetupProject.JNull
  = SetupProject.Exc SetupProject.AttributeError
  /\ SetupProject.build_single_select_options (demo_env [])
       [] SetupProject.JNull
     = SetupProject.Val (lit "[]").
Proof.
  split.
  - rewrite options_need_dictionary; [reflexivity | discriminate].
  - rewrite options_need_dictionary; [reflexivity | discriminate].
Defined.


(** Lines 153-158: [create_field] raises [KeyError] for a field key that
    has no colours, and for one that the locale does not describe, before
    any command is run or anything is printed. *)
Theorem create_field_key_errors (E : SetupProject.Env)
    (project_id name key : pystr) (st : SetupProject.io) :
  (SetupProject.lookup key SetupProject.FIELD_COLORS = None ->
   forall locale,
     SetupProject.create_field E project_id name key locale st
     = (SetupProject.Exc (SetupProject.KeyError key), st))
  /\
  (forall colors items,
      SetupProject.lookup key SetupProject.FIELD_COLORS = Some colors ->
      SetupProject.lookup key items = None ->
      SetupProject.create_field E project_id name key
        (SetupProject.JDict items) st
      = (SetupProject.Exc (SetupProject.KeyError key), st)).
Proof.
  unfold SetupProject.create_field, SetupProject.subscript_json,
    SetupProject.subscript. split.
  - intros -> locale. reflexivity.
  - intros colors items -> Hl. rewrite Hl. reflexivity.
Qed.

Lemma create_field_key_errors_witness :
  SetupProject.create_field (demo_env []) (lit "P_1")
    (lit "Effort") (lit "effort") sample_locale SetupProject.start
  = (SetupProject.Exc (SetupProject.KeyError (lit "effort")),
     SetupProject.start)
  /\ SetupProject.create_field (demo_env []) (lit "P_1")
       (lit "Size") (lit "size")
       (SetupProject.JDict [(lit "status", SetupProject.JDict [])])
       SetupProject.start
     = (SetupProject.Exc (SetupProject.KeyError (lit "size")),
        SetupProject.start).
Proof.
  split.
  - apply (proj1 (create_field_key_errors (demo_env [])
                    (lit "P_1") (lit "Effort") (lit "effort")
                    SetupProject.start)).
    reflexivity.
  - refine (proj2 (create_field_key_errors (demo_env [])
                     (lit "P_1") (lit "Size") (lit "size")
                     SetupProject.start)
              [(lit "XS", lit "GRAY"); (lit "S", lit "GREEN");
               (lit "M", lit "YELLOW"); (lit "L", lit "ORANGE");
               (lit "XL", lit "RED")]
              [(lit "status", SetupProject.JDict [])] eq_refl eq_refl).
Defined.

(** ** The commands and the output of setup-project.py *)

Section SetupProjectMain.

Import SetupProject.

Variable E : Env.

Lemma yields_ret {A : Type} (a : A) : yields (ret a) returned [] [].
Proof.
  intros st. exists (Val a), st, []. rewrite !app_nil_r.
  repeat split. now exists a.
Qed.

Lemma yields_lift_bind {A B : Type} (a : A) (k : A -> M B)
    (P : res B -> Prop) (commands : list (list pystr)) (tail : pystr) :
  yields (k a) P commands tail ->
  yields (bindM (lift (Val a)) k) P commands tail.
Proof. intros H st. exact (H st). Qed.

Lemma yields_bind {A B : Type} (c : M A) (k : A -> M B)
    (P : res B -> Prop) (c1 c2 : list (list pystr)) (tail : pystr) :
  yields c returned c1 [] ->
  (forall a, yields (k a) P c2 tail) ->
  yields (bindM c k) P (c1 ++ c2) tail.
Proof.
  intros Hc Hk st.
  destruct (Hc st) as (r & st1 & p1 & E1 & [a ->] & C1 & O1).
  destruct (Hk a st1) as (r2 & st2 & p2 & E2 & P2 & C2 & O2).
  exists r2, st2, (p1 ++ p2). unfold bindM. rewrite E1.
  repeat split; try assumption.
  - now rewrite C2, C1, app_assoc.
  - rewrite O2, O1, app_nil_r. now rewrite <- !app_assoc.
Qed.

Lemma yields_raise_bind {A B : Type} (c : M A) (k : A -> M B) (e : exn)
    (commands : list (list pystr)) (tail : pystr) :
  yields c (eq (Exc e)) commands tail ->
  yields (bindM c k) (eq (Exc e)) commands tail.
Proof.
  intros Hc st. destruct (Hc st) as (r & st1 & p1 & E1 & <- & C1 & O1).
  exists (Exc e), st1, p1. unfold bindM. rewrite E1. auto.
Qed.

Lemma yields_no_tail {A : Type} (c : M A) (P : res A -> Prop)
    (commands : list (list pystr)) (tail : pystr) :
  yields c P commands tail -> yields c P commands [].
Proof.
  intros H st. destruct (H st) as (r & st1 & p1 & E1 & HP & C1 & O1).
  exists r, st1, (p1 ++ tail). rewrite app_nil_r. auto.
Qed.

Lemma yields_commands {A : Type} (c : M A) (P : res A -> Prop)
    (c1 c2 : list (list pystr)) (tail : pystr) :
  c1 = c2 -> yields c P c1 tail -> yields c P c2 tail.
Proof. now intros ->. Qed.

Hypothesis Hprint : prints E.

Lemma yields_say (s : pystr) : yields (say E s) returned [] (s ++ nl).
Proof.
  intros st. unfold say. rewrite Hprint.
  do 2 eexists. exists []. split; [reflexivity|].
  cbn [out calls]. rewrite app_nil_r. repeat split. now exists tt.
Qed.

Lemma yields_say_silent (s : pystr) : yields (say E s) returned [] [].
Proof. exact (yields_no_tail _ _ _ _ (yields_say s)). Qed.

(** A line is printed and the next statement raises without running or
    printing anything. *)
Lemma yields_say_raise {B : Type} (s : pystr) (k : unit -> M B) (e : exn) :
  (forall st, k tt st = (Exc e, st)) ->
  yields (bindM (say E s) k) (eq (Exc e)) [] (s ++ nl).
Proof.
  intros Hk st. unfold bindM, say. rewrite Hprint, Hk.
  do 2 eexists. exists []. split; [reflexivity|].
  cbn [out calls]. rewrite app_nil_r. repeat split.
Qed.

Hypothesis Hgh : gh_runs E.
Hypothesis Hjson : json_decodes E.

Lemma yields_run_graphql (query : pystr) :
  yields (run_graphql E query) returned [gh_command query] [].
Proof.
  intros st. pose proof (run_graphql_cases E query st) as H.
  cbv zeta in H. rewrite H. clear H.
  assert (Hquiet : exists r st' printed,
             (Val (@None jval),
              {| out := out st; calls := calls st ++ [gh_command query] |})
             = (r, st') /\ returned r /\
             calls st' = calls st ++ [gh_command query] /\
             out st' = out st ++ printed ++ []).
  { eexists _, _, []. split; [reflexivity|]. split; [now eexists|].
    split; [reflexivity|]. cbn [out app]. now rewrite app_nil_r. }
  assert (Hsay : forall s, exists r st' printed,
             (Val (@None jval),
              {| out := print s (out st);
                 calls := calls st ++ [gh_command query] |})
             = (r, st') /\ returned r /\
             calls st' = calls st ++ [gh_command query] /\
             out st' = out st ++ printed ++ []).
  { intros s. eexists _, _, (s ++ nl). split; [reflexivity|].
    split; [now eexists|]. split; [reflexivity|].
    cbn [out]. unfold print. now rewrite app_nil_r. }
  destruct (subprocess_run E (calls st) (gh_command query))
    as [rc o e|x] eqn:Hrun.
  - destruct (Z.eqb rc 0).
    + destruct (truthy (strip o)); [|exact Hquiet].
      destruct (json_loads E o) as [v|x] eqn:J.
      * eexists _, _, []. split; [reflexivity|]. split; [now eexists|].
        split; [reflexivity|]. cbn [out app]. now rewrite app_nil_r.
      * destruct (Hjson o x J) as [text ->]. rewrite Hprint. apply Hsay.
    + rewrite Hprint. apply Hsay.
  - rewrite (Hgh _ _ _ Hrun), Hprint. apply Hsay.
Qed.

Lemma field_colors_known (key : pystr) :
  In key [lit "status"; lit "priority"; lit "type"; lit "size"] ->
  subscript FIELD_COLORS key = Val (colors_of key).
Proof.
  intros [<-|[<-|[<-|[<-|[]]]]]; reflexivity.
Qed.

Lemma descriptions_known (locale : jval) (key : pystr) :
  describes locale key ->
  subscript_json locale key = Val (JDict (descriptions_of locale key)).
Proof.
  intros [items H]. unfold descriptions_of. now rewrite H.
Qed.

Lemma yields_create_field (project_id name key : pystr) (locale : jval) :
  In key [lit "status"; lit "priority"; lit "type"; lit "size"] ->
  describes locale key ->
  yields (create_field E project_id name key locale) returned
    [create_command E project_id name key locale] [].
Proof.
  intros Hk Hd. unfold create_field.
  rewrite (field_colors_known key Hk), (descriptions_known locale key Hd).
  do 2 apply yields_lift_bind. rewrite build_options_dict.
  apply yields_lift_bind. apply yields_run_graphql.
Qed.

Lemma yields_setup_status (id : pystr) (locale : jval) :
  describes locale (lit "status") ->
  yields (setup_status E id locale) returned
    [status_command E id locale] [].
Proof.
  intros Hd. unfold setup_status.
  rewrite (field_colors_known (lit "status")) by (simpl; tauto).
  rewrite (descriptions_known locale _ Hd).
  do 2 apply yields_lift_bind. rewrite build_options_dict.
  apply yields_lift_bind. apply yields_run_graphql.
Qed.

Lemma yields_create_fields (project_id : pystr) (locale : jval)
    (fields : list (pystr * pystr)) :
  Forall (fun f =>
            In (snd f)
              [lit "status"; lit "priority"; lit "type"; lit "size"] /\
            describes locale (snd f)) fields ->
  yields (create_fields E project_id locale fields) returned
    (map (fun f => create_command E project_id (fst f) (snd f) locale)
       fields) [].
Proof.
  induction 1 as [|[name key] fields [Hk Hd] _ IH].
  - apply yields_ret.
  - cbn [create_fields map fst snd].
    apply (yields_bind _ _ _ [] _ _ (yields_say_silent _)). intros _.
    apply (yields_bind _ _ _ [_] _ _
             (yields_create_field project_id name key locale Hk Hd)).
    intros result.
    apply (yields_bind _ _ _ [] _ _); [|intros _; exact IH].
    destruct (succeeded result);
      [apply yields_say_silent | apply yields_ret].
Qed.

(** The part of [main] that updates the status field. *)
Lemma yields_status_part (args : Namespace) (locale : jval) :
  describes locale (lit "status") ->
  yields
    (match given (field_id args) with
     | Some id =>
         bindM
           (say E (nl ++ lit "[Status] Updating field " ++ id ++ lit "..."))
           (fun _ =>
              bindM (setup_status E id locale)
                (fun result =>
                   if succeeded result
                   then say E (lit "  " ++ check_mark
                               ++ lit " Status updated")
                   else ret tt))
     | None => ret tt
     end) returned (status_commands E args locale) [].
Proof.
  intros Hd. unfold status_commands.
  destruct (given (field_id args)) as [id|]; [|apply yields_ret].
  apply (yields_bind _ _ _ [] _ _ (yields_say_silent _)). intros _.
  apply (yields_commands _ _ ([status_command E id locale] ++ []));
    [reflexivity|].
  apply (yields_bind _ _ _ _ _ _ (yields_setup_status id locale Hd)).
  intros result.
  destruct (succeeded result); [apply yields_say_silent | apply yields_ret].
Qed.

End SetupProjectMain.



(** The run of the example, in full: one response, one failure, one
    output that is not JSON and one timeout. *)
Example demo_run :
  SetupProject.main (demo_env sample_answers) SetupProject.start
  = (SetupProject.Val tt,
     {| SetupProject.out :=
          lit "Language: en" ++ nl
          ++ nl ++ lit "[Status] Updating field F_1..." ++ nl
          ++ lit "  " ++ check_mark ++ lit " Status updated" ++ nl
          ++ nl ++ lit "[Priority] Creating field..." ++ nl
          ++ lit "Error: boom" ++ nl
          ++ nl ++ lit "[Type] Creating field..." ++ nl
          ++ lit "Error: Failed to parse response: Expecting value: line 1 column 1 (char 0)" ++ nl
          ++ nl ++ lit "[Size] Creating field..." ++ nl
          ++ lit "Error: Command timed out after 30s" ++ nl
          ++ nl ++ lit "Done!" ++ nl;
        SetupProject.calls :=
          [status_command (demo_env sample_answers) (lit "F_1") sample_locale;
           create_command (demo_env sample_answers) (lit "P_1")
             (lit "Priority") (lit "priority") sample_locale;
           create_command (demo_env sample_answers) (lit "P_1")
             (lit "Type") (lit "type") sample_locale;
           create_command (demo_env sample_answers) (lit "P_1")
             (lit "Size") (lit "size") sample_locale] |}).
Proof. vm_compute. reflexivity. Qed.

(** Lines 183-206: [main] runs no command when [parse_args] raises (the
    exception reaches the caller after what argparse itself wrote, the
    help for instance), when only the languages are asked for (they are
    printed), and when the file of the language is missing
    ([FileNotFoundError] naming the language and the available ones,
    before anything is printed). *)
Theorem main_stops_before_gh (E : SetupProject.Env) :
  (forall e printed,
      SetupProject.parse_args E (SetupProject.list_available_languages E)
      = (SetupProject.Exc e, printed) ->
      SetupProject.main E SetupProject.start
      = (SetupProject.Exc e,
         {| SetupProject.out := printed; SetupProject.calls := [] |}))
  /\
  (forall args printed,
      SetupProject.parse_args E (SetupProject.list_available_languages E)
      = (SetupProject.Val args, printed) ->
      SetupProject.list_langs args = true ->
      SetupProject.stdout_error E printed
        (lit "Available languages: "
         ++ SetupProject.str_of_list E (SetupProject.glob_json_stems E))
      = None ->
      SetupProject.main E SetupProject.start
      = (SetupProject.Val tt,
         {| SetupProject.out :=
              printed ++ lit "Available languages: "
              ++ SetupProject.str_of_list E (SetupProject.glob_json_stems E)
              ++ nl;
            SetupProject.calls := [] |}))
  /\
  (forall args printed,
      SetupProject.parse_args E (SetupProject.list_available_languages E)
      = (SetupProject.Val args, printed) ->
      SetupProject.list_langs args = false ->
      SetupProject.locale_file E (SetupProject.lang args ++ lit ".json")
      = None ->
      SetupProject.main E SetupProject.start
      = (SetupProject.Exc
           (SetupProject.FileNotFoundError
              (lit "Locale '" ++ SetupProject.lang args
               ++ lit "' not found. Available: "
               ++ SetupProject.str_of_list E
                    (SetupProject.glob_json_stems E))),
         {| SetupProject.out := printed; SetupProject.calls := [] |})).
Proof.
  unfold SetupProject.main. split; [|split].
  - intros e printed H. unfold SetupProject.bindM, SetupProject.parse.
    rewrite H. reflexivity.
  - intros args printed H Hl Hw.
    unfold SetupProject.bindM, SetupProject.parse. rewrite H.
    cbn [fst snd]. rewrite Hl. unfold SetupProject.say.
    cbn [SetupProject.out SetupProject.calls SetupProject.start app].
    unfold SetupProject.list_available_languages. rewrite Hw.
    unfold print. now rewrite <- !app_assoc.
  - intros args printed H Hl Hf.
    unfold SetupProject.bindM at 1. unfold SetupProject.parse.
    rewrite H. cbn [fst snd]. rewrite Hl.
    unfold SetupProject.bindM at 1. unfold SetupProject.lift at 1.
    unfold SetupProject.load_locale. rewrite Hf. reflexivity.
Qed.

Lemma main_stops_before_gh_witness :
  SetupProject.main ja_only_env SetupProject.start
  = (SetupProject.Exc
       (SetupProject.FileNotFoundError
          (lit "Locale 'en' not found. Available: ['ja']")),
     SetupProject.start).
Proof.
  rewrite (proj2 (proj2 (main_stops_before_gh ja_only_env))
             default_lang_args [] eq_refl eq_refl eq_refl).
  reflexivity.
Defined.

(** ** A locale that lacks a field *)



(** The run on the partial locale, in full. *)
Example partial_run :
  SetupProject.main partial_env SetupProject.start
  = (SetupProject.Exc (SetupProject.KeyError (lit "type")),
     {| SetupProject.out :=
          lit "Language: en" ++ nl
          ++ nl ++ lit "[Status] Updating field F_1..." ++ nl
          ++ lit "  " ++ check_mark ++ lit " Status updated" ++ nl
          ++ nl ++ lit "[Priority] Creating field..." ++ nl
          ++ lit "  " ++ check_mark ++ lit " Priority created" ++ nl
          ++ nl ++ lit "[Type] Creating field..." ++ nl;
        SetupProject.calls :=
          [status_command partial_env (lit "F_1")
             (SetupProject.JDict partial_locale);
           create_command partial_env (lit "P_1") (lit "Priority")
             (lit "priority") (SetupProject.JDict partial_locale)] |}).
Proof. vm_compute. reflexivity. Qed.

(** The command that creates Priority on the partial locale, in full. *)
Example partial_priority_command :
  create_command partial_env (lit "P_1") (lit "Priority") (lit "priority")
    (SetupProject.JDict partial_locale)
  = [lit "gh"; lit "api"; lit "graphql"; lit "-f";
     lit "query=" ++ nl
     ++ lit "    mutation {" ++ nl
     ++ lit "      createProjectV2Field(input: {" ++ nl
     ++ lit "        projectId: " ++ SetupProject.dq ++ lit "P_1"
     ++ SetupProject.dq ++ nl
     ++ lit "        dataType: SINGLE_SELECT" ++ nl
     ++ lit "        name: " ++ SetupProject.dq ++ lit "Priority"
     ++ SetupProject.dq ++ nl
     ++ lit "        singleSelectOptions: [{name: " ++ SetupProject.dq
     ++ lit "Critical" ++ SetupProject.dq ++ lit ", color: RED, description: "
     ++ SetupProject.dq ++ lit "Critical" ++ SetupProject.dq ++ lit "}, {name: "
     ++ SetupProject.dq ++ lit "High" ++ SetupProject.dq
     ++ lit ", color: ORANGE, description: " ++ SetupProject.dq ++ lit "High"
     ++ SetupProject.dq ++ lit "}, {name: " ++ SetupProject.dq ++ lit "Medium"
     ++ SetupProject.dq ++ lit ", color: YELLOW, description: "
     ++ SetupProject.dq ++ lit "Medium" ++ SetupProject.dq ++ lit "}, {name: "
     ++ SetupProject.dq ++ lit "Low" ++ SetupProject.dq
     ++ lit ", color: GRAY, description: " ++ SetupProject.dq ++ lit "Low"
     ++ SetupProject.dq ++ lit "}]" ++ nl
     ++ lit "      }) {" ++ nl
     ++ lit "        projectV2Field {" ++ nl
     ++ lit "          ... on ProjectV2SingleSelectField {" ++ nl
     ++ lit "            name" ++ nl
     ++ lit "            options { name }" ++ nl
     ++ lit "          }" ++ nl
     ++ lit "        }" ++ nl
     ++ lit "      }" ++ nl
     ++ lit "    }" ++ nl
     ++ lit "    "].
Proof. vm_compute. reflexivity. Qed.
